(** * chrome-uploader: the Tandem event simulator, the timezone offset
    resolver and the termination rules, embedded and verified

  Sources embedded here:
  - [lib/tandem/tandemSimulator.js]: [make], [ensureTimestamp],
    [simpleSimulate], the ingestion operations, [finalBasal], [getEvents];
  - [lib/TimezoneOffsetUtil.js]: [findOffsetDifference],
    [adjustCurrentOffset], the construction of [offsetIntervals], [lookup].

  The Insulet simulator, which [test/insulet/testInsuletSimulator.js]
  exercises, is not among the sources; what is proved of its termination
  notices, which the Tandem simulator has none of, is proved of a model of
  section 4.3 of the specification (module [Reconciler]).

  JavaScript numbers are IEEE-754 binary64 values: they are primitive
  floats here, so [1.3 + 2.7] rounds exactly as it does in the program.
  Integers that the program only compares or counts with (sequence indices,
  minutes of offset, milliseconds since the epoch) are in [Z]. *)

From Stdlib Require Import ZArith String Ascii List Bool Lia.
From Stdlib Require Import Permutation Sorted.
From Stdlib Require Import PrimFloat.
Import ListNotations.

Local Open Scope string_scope.
Local Open Scope Z_scope.

Set Implicit Arguments.
Set Warnings "-register-all,-inexact-float".

(** ** JavaScript primitives *)

Module JS.

Definition number := float.

(** What a [throw] carries: [new Error(message)]. *)
Inductive error : Type :=
| Error (message : string).

Inductive result (A : Type) : Type :=
| Ok (a : A)
| Throw (e : error).
Arguments Ok {A} a.
Arguments Throw {A} e.

(** A method of an object with private state [S]: it runs on the state and
    completes normally with a value or abruptly with an exception. What it
    had written before a [throw] stays written. *)
Definition M (S A : Type) : Type := S -> result A * S.

Definition ret {S A} (a : A) : M S A := fun s => (Ok a, s).

Definition throw {S A} (e : error) : M S A := fun s => (Throw e, s).

Definition bind {S A B} (m : M S A) (k : A -> M S B) : M S B :=
  fun s =>
    match m s with
    | (Ok a, s') => k a s'
    | (Throw e, s') => (Throw e, s')
    end.

Definition gets {S A} (f : S -> A) : M S A := fun s => (Ok (f s), s).

Definition modify {S} (f : S -> S) : M S unit := fun s => (Ok tt, f s).

(** [x === 0] for a numeric property that may be absent ([undefined]). *)
Definition strict_eq_zero (x : option number) : bool :=
  match x with
  | Some f => (f =? 0)%float
  | None => false
  end.

(** [!x] for a numeric property that may be absent: [undefined], [0],
    [-0] and [NaN] are the falsy numbers. *)
Definition not_ (x : option number) : bool :=
  match x with
  | Some f => (f =? 0)%float || is_nan f
  | None => true
  end.

(** [a > b] where [a] is [null] or a string and [b] is a string. Two
    strings compare by code units. [null > b] compares [0] with
    [ToNumber b], which is [NaN] for a timestamp: false. *)
Definition gt (a : option string) (b : string) : bool :=
  match a with
  | None => false
  | Some a => String.ltb b a
  end.

(** An integer as a number; exact below 2^53, where every time value
    lies. *)
Fixpoint number_of_positive (p : positive) : number :=
  match p with
  | xH => 1%float
  | xO q => (2 * number_of_positive q)%float
  | xI q => (2 * number_of_positive q + 1)%float
  end.

Definition number_of_Z (z : Z) : number :=
  match z with
  | Z0 => 0%float
  | Zpos p => number_of_positive p
  | Zneg p => (- number_of_positive p)%float
  end.

End JS.

Notation "x <- m ;; k" := (JS.bind m (fun x => k))
  (at level 61, m at next level, right associativity).
Notation "m ;;; k" := (JS.bind m (fun _ => k))
  (at level 61, right associativity).

(** ** Dates

  [Date.parse] on the one format every [time] of the sources has, the one
  [toISOString] prints: [YYYY-MM-DDTHH:mm:ss.sssZ]. The milliseconds may be
  left out. Anything else is treated as unparsable. *)

Module Date.

Definition digit (c : ascii) : option Z :=
  let n := Z.of_N (N_of_ascii c) in
  if (48 <=? n) && (n <=? 57) then Some (n - 48) else None.

Fixpoint digits (s : string) (acc : Z) : option Z :=
  match s with
  | EmptyString => Some acc
  | String c r =>
      match digit c with
      | Some d => digits r (10 * acc + d)
      | None => None
      end
  end.

(** The [n] decimal digits at offset [i]. *)
Definition field (s : string) (i n : nat) : option Z :=
  let f := substring i n s in
  if Nat.eqb (String.length f) n then digits f 0 else None.

Definition sep (s : string) (i : nat) (c : string) : bool :=
  String.eqb (substring i 1 s) c.

Definition leap (y : Z) : bool :=
  ((y mod 4 =? 0) && negb (y mod 100 =? 0)) || (y mod 400 =? 0).

Definition days_in_month (y m : Z) : Z :=
  if m =? 2 then (if leap y then 29 else 28)
  else if (m =? 4) || (m =? 6) || (m =? 9) || (m =? 11) then 30
  else 31.

(** Days from 1970-01-01 to the civil date [y-m-d]. *)
Definition days_from_civil (y m d : Z) : Z :=
  let y' := if m <=? 2 then y - 1 else y in
  let era := y' / 400 in
  let yoe := y' - era * 400 in
  let mp := (m + 9) mod 12 in
  let doy := (153 * mp + 2) / 5 + d - 1 in
  let doe := yoe * 365 + yoe / 4 - yoe / 100 + doy in
  era * 146097 + doe - 719468.

Definition MS_PER_MINUTE : Z := 60000.

Definition make_time (y mo d h mi s ms : Z) : option Z :=
  if (1 <=? mo) && (mo <=? 12) && (1 <=? d) && (d <=? days_in_month y mo)
     && (h <=? 23) && (mi <=? 59) && (s <=? 59)
  then Some (days_from_civil y mo d * 86400000
             + h * 3600000 + mi * MS_PER_MINUTE + s * 1000 + ms)
  else None.

(** The part after the seconds: nothing (when [zulu] is not required),
    [Z], [.sss] or [.sssZ]. The result is the milliseconds. *)
Definition fraction (s : string) (zulu : bool) : option Z :=
  let rest := substring 19 (String.length s - 19) s in
  if String.eqb rest "" then (if zulu then None else Some 0)
  else if String.eqb rest "Z" then Some 0
  else if sep s 19 "." then
    match field s 20 3 with
    | Some ms =>
        let tail := substring 23 (String.length s - 23) s in
        if String.eqb tail "Z" then Some ms
        else if String.eqb tail "" then (if zulu then None else Some ms)
        else None
    | None => None
    end
  else None.

Definition parse_iso (zulu : bool) (s : string) : option Z :=
  if sep s 4 "-" && sep s 7 "-" && sep s 10 "T" && sep s 13 ":"
     && sep s 16 ":"
  then
    match field s 0 4, field s 5 2, field s 8 2,
          field s 11 2, field s 14 2, field s 17 2, fraction s zulu with
    | Some y, Some mo, Some d, Some h, Some mi, Some sec, Some ms =>
        make_time y mo d h mi sec ms
    | _, _, _, _, _, _, _ => None
    end
  else None.

(** [Date.parse(s)]: milliseconds since the epoch, or [NaN]. It reads the
    format in which the program writes its timestamps, that of
    [toISOString]: [YYYY-MM-DDTHH:mm:ssZ] and [YYYY-MM-DDTHH:mm:ss.sssZ].
    The engine reads more than that (dates alone, zone offsets, formats of
    its own); on those this model says [NaN], so nothing is to be concluded
    from a [NaN] of the model on a string of another format. *)
Definition parse (s : string) : JS.number :=
  match parse_iso true s with
  | Some ms => JS.number_of_Z ms
  | None => nan
  end.

(** The civil date [(y, m, d)] of a day counted from 1970-01-01. *)
Definition civil_from_days (z : Z) : Z * Z * Z :=
  let z := z + 719468 in
  let era := z / 146097 in
  let doe := z - era * 146097 in
  let yoe := (doe - doe / 1460 + doe / 36524 - doe / 146096) / 365 in
  let doy := doe - (365 * yoe + yoe / 4 - yoe / 100) in
  let mp := (5 * doy + 2) / 153 in
  let d := doy - (153 * mp + 2) / 5 + 1 in
  let m := if mp <? 10 then mp + 3 else mp - 9 in
  ((yoe + era * 400) + (if m <=? 2 then 1 else 0), m, d).

(** The last [n] decimal digits of [z], zeros in front. *)
Fixpoint pad (n : nat) (z : Z) : string :=
  match n with
  | O => ""
  | S k =>
      pad k (z / 10)
      ++ String (ascii_of_N (Z.to_N (48 + z mod 10))) ""
  end.

(** [new Date(ms).toISOString()]; years outside 0..9999 print with a sign
    and six digits. *)
Definition toISOString (ms : Z) : string :=
  let day := ms / 86400000 in
  let t := ms mod 86400000 in
  let '(y, m, d) := civil_from_days day in
  (if (0 <=? y) && (y <=? 9999) then pad 4 y
   else (if y <? 0 then "-" else "+") ++ pad 6 (Z.abs y))
  ++ "-" ++ pad 2 m ++ "-" ++ pad 2 d
  ++ "T" ++ pad 2 (t / 3600000) ++ ":" ++ pad 2 (t / MS_PER_MINUTE mod 60)
  ++ ":" ++ pad 2 (t / 1000 mod 60) ++ "." ++ pad 3 (t mod 1000) ++ "Z".

End Date.

(** ** lodash *)

Module lodash.

Section SortBy.

Variables (A K : Type) (leb : K -> K -> bool) (key : A -> K).

Fixpoint insert (a : A) (l : list A) : list A :=
  match l with
  | [] => [a]
  | x :: r =>
      if leb (key a) (key x) then a :: x :: r
      else x :: insert a r
  end.

(** [_.sortBy(l, key)]: ascending, and stable: of two elements with equal
    keys the one that came first stays first. *)
Definition sortBy (l : list A) : list A :=
  fold_right insert [] l.

End SortBy.

End lodash.

(** ** Events

    The objects the simulators pass around, with the properties the sources
    read or write. An absent property is [None]; [annotations] absent is the
    empty list; the properties no function looks at are kept in [rest]. *)

Module Event.

Inductive t : Type := Build {
  type : string;
  subType : option string;
  time : string;
  index : option Z;
  deliveryType : option string;
  rate : option JS.number;
  duration : option JS.number;
  normal : option JS.number;
  extended : option JS.number;
  expectedNormal : option JS.number;
  expectedExtended : option JS.number;
  expectedDuration : option JS.number;
  bolus : option t;
  previous : option t;
  annotations : list string;
  rest : list (string * string)
}.

(** [e.duration = d] *)
Definition set_duration (d : option JS.number) (e : t) : t :=
  Build (type e) (subType e) (time e) (index e) (deliveryType e) (rate e)
    d (normal e) (extended e) (expectedNormal e)
    (expectedExtended e) (expectedDuration e) (bolus e) (previous e)
    (annotations e) (rest e).

(** [e.previous = p]; [None] removes the property. *)
Definition set_previous (p : option t) (e : t) : t :=
  Build (type e) (subType e) (time e) (index e) (deliveryType e) (rate e)
    (duration e) (normal e) (extended e) (expectedNormal e)
    (expectedExtended e) (expectedDuration e) (bolus e) p
    (annotations e) (rest e).

(** [_.omit(e, 'previous')]: a copy without that property. *)
Definition omit_previous (e : t) : t := set_previous None e.

(** [delete e.index] *)
Definition delete_index (e : t) : t :=
  Build (type e) (subType e) (time e) None (deliveryType e) (rate e)
    (duration e) (normal e) (extended e) (expectedNormal e)
    (expectedExtended e) (expectedDuration e) (bolus e) (previous e)
    (annotations e) (rest e).

Definition set_annotations (a : list string) (e : t) : t :=
  Build (type e) (subType e) (time e) (index e) (deliveryType e) (rate e)
    (duration e) (normal e) (extended e) (expectedNormal e)
    (expectedExtended e) (expectedDuration e) (bolus e) (previous e)
    a (rest e).

End Event.

(** Modelled from the spec: the object builder of [lib/objectBuilder.js],
    which is not among the sources. A delivery segment reaches the simulator
    as a draft whose [duration] may still be unassigned; [done] turns the
    draft into the finished record with the same properties. The simulator
    is taken as its drivers use it: every segment is a draft when it
    arrives, with its required properties assigned, so that the methods of
    the draft are there to call and [done] has nothing to reject. *)

Module Builder.

(** [rec.isAssigned('duration')] *)
Definition isAssigned_duration (e : Event.t) : bool :=
  match Event.duration e with
  | Some _ => true
  | None => false
  end.

(** [rec.with_duration(d)] *)
Definition with_duration (d : JS.number) (e : Event.t) : Event.t :=
  Event.set_duration (Some d) e.

(** [rec.done()] *)
Definition done (e : Event.t) : Event.t := e.

End Builder.

(** Modelled from the spec: the annotation registry of
    [lib/eventAnnotations.js], which is not among the sources. It appends an
    advisory code to those of the record. *)

Module annotate.

Definition annotateEvent (e : Event.t) (code : string) : Event.t :=
  Event.set_annotations (Event.annotations e ++ [code]) e.

End annotate.

(** ** The Tandem simulator ([lib/tandem/tandemSimulator.js]) *)

Module Tandem.

Section Simulator.

(** The pump settings handed over in [config.settings]; only the schedule
    finalizer reads them. *)
Variable Settings : Type.

(** [common.finalScheduledBasal(currBasal, settings, source)] of
    [lib/commonSimulations.js], which is not among the sources. *)
Variable finalScheduledBasal : Event.t -> Settings -> string -> Event.t.

Record config : Type := Config {
  settings : option Settings
}.

(** The variables [make] closes over. *)
Record state : Type := State {
  cfg : config;
  events : list Event.t;
  currBasal : option Event.t;
  currTimestamp : option string
}.

Definition M := JS.M state.

(** [exports.make(config)]: a missing [config] is the empty object. *)
Definition make (c : option config) : state :=
  {| cfg := match c with Some c => c | None => Config None end;
     events := [];
     currBasal := None;
     currTimestamp := None |}.

Definition set_currBasal (b : option Event.t) (s : state) : state :=
  {| cfg := cfg s; events := events s; currBasal := b;
     currTimestamp := currTimestamp s |}.

Definition set_currTimestamp (t : option string) (s : state) : state :=
  {| cfg := cfg s; events := events s; currBasal := currBasal s;
     currTimestamp := t |}.

Definition set_events (l : list Event.t) (s : state) : state :=
  {| cfg := cfg s; events := l; currBasal := currBasal s;
     currTimestamp := currTimestamp s |}.

(** [events.push(e)] *)
Definition push (e : Event.t) : M unit :=
  JS.modify (fun s => set_events (events s ++ [e]) s).

Definition setCurrBasal (basal : Event.t) : M unit :=
  JS.modify (set_currBasal (Some basal)).

Definition ORDER_MESSAGE : string := "Timestamps must be in order.".

Definition ensureTimestamp (e : Event.t) : M Event.t :=
  t <- JS.gets currTimestamp ;;
  if JS.gt t (Event.time e) then JS.throw (JS.Error ORDER_MESSAGE)
  else
    JS.modify (set_currTimestamp (Some (Event.time e))) ;;;
    JS.ret e.

Definition simpleSimulate (e : Event.t) : M unit :=
  ensureTimestamp e ;;;
  push e.

Definition alarm (event : Event.t) : M unit := simpleSimulate event.

Definition basal (event : Event.t) : M unit :=
  ensureTimestamp event ;;;
  open <- JS.gets currBasal ;;
  event <-
    match open with
    | Some cb =>
        (* ignore repeated broadcasts of events at the same time *)
        if negb (String.eqb (Event.time cb) (Event.time event)) then
          let cb :=
            if negb (Builder.isAssigned_duration cb)
            then Builder.with_duration
                   (Date.parse (Event.time event)
                    - Date.parse (Event.time cb))%float cb
            else cb in
          let cb := Builder.done cb in
          JS.modify (set_currBasal (Some cb)) ;;;
          let event :=
            Event.set_previous (Some (Event.omit_previous cb)) event in
          push cb ;;;
          JS.ret event
        else JS.ret event
    | None => JS.ret event
    end ;;
  setCurrBasal event.

(** What [finalBasal] makes of the open segment. *)
Definition finalize (c : config) (cb : Event.t) : Event.t :=
  if negb (match Event.deliveryType cb with
           | Some d => String.eqb d "scheduled"
           | None => false
           end)
  then
    if match Event.deliveryType cb with
       | Some d => String.eqb d "temp"
       | None => false
       end
    then Builder.done cb
    else
      if negb (Builder.isAssigned_duration cb) then
        let cb := Event.set_duration (Some 0%float) cb in
        let cb := annotate.annotateEvent cb "basal/unknown-duration" in
        Builder.done cb
      else Builder.done cb
  else
    match settings c with
    | Some st => finalScheduledBasal cb st "tandem"
    | None =>
        let cb := Builder.with_duration 0%float cb in
        let cb := annotate.annotateEvent cb "basal/unknown-duration" in
        Builder.done cb
    end.

(** [finalBasal()]. The slot is left holding what [done] returned, a
    finished record and a draft no more. The model does not tell the two
    apart: of a later call that acts on the slot again it says what the
    code would do with a draft there. *)
Definition finalBasal : M unit :=
  open <- JS.gets currBasal ;;
  match open with
  | Some cb =>
      c <- JS.gets cfg ;;
      let cb := finalize c cb in
      JS.modify (set_currBasal (Some cb)) ;;;
      push cb
  | None => JS.ret tt
  end.

Definition bolus (event : Event.t) : M unit := simpleSimulate event.
Definition changeDeviceTime (event : Event.t) : M unit := simpleSimulate event.
Definition changeReservoir (event : Event.t) : M unit := simpleSimulate event.
Definition resume (event : Event.t) : M unit := simpleSimulate event.
Definition pumpSettings (event : Event.t) : M unit := simpleSimulate event.
Definition smbg (event : Event.t) : M unit := simpleSimulate event.
Definition suspend (event : Event.t) : M unit := simpleSimulate event.
Definition wizard (event : Event.t) : M unit := simpleSimulate event.

(** The predicate of [filterOutZeroBoluses], on an event whose [index] has
    just been deleted. *)
Definition keep (event : Event.t) : bool :=
  if String.eqb (Event.type event) "bolus" then
    if JS.strict_eq_zero (Event.normal event)
       && JS.not_ (Event.expectedNormal event)
    then false
    else true
  else if String.eqb (Event.type event) "wizard" then
    match Event.bolus event with
    | Some b =>
        if JS.strict_eq_zero (Event.normal b)
           && JS.not_ (Event.expectedNormal b)
        then false
        else true
    | None => true
    end
  else true.

(** [filterOutZeroBoluses]: the filter deletes [index] from every event it
    visits, kept or not, in the [events] array itself. *)
Definition filterOutZeroBoluses : M (list Event.t) :=
  JS.modify (fun s => set_events (map Event.delete_index (events s)) s) ;;;
  l <- JS.gets events ;;
  JS.ret (filter keep l).

Definition getEvents : M (list Event.t) :=
  l <- filterOutZeroBoluses ;;
  let orderedEvents := lodash.sortBy String.leb Event.time l in
  JS.ret orderedEvents.

(** A call of one of the methods that take in a record, or of [finalBasal]. *)
Inductive call : Type :=
| Alarm (event : Event.t)
| Basal (event : Event.t)
| FinalBasal
| Bolus (event : Event.t)
| ChangeDeviceTime (event : Event.t)
| ChangeReservoir (event : Event.t)
| Resume (event : Event.t)
| PumpSettings (event : Event.t)
| Smbg (event : Event.t)
| Suspend (event : Event.t)
| Wizard (event : Event.t).

Definition perform (c : call) : M unit :=
  match c with
  | Alarm e => alarm e
  | Basal e => basal e
  | FinalBasal => finalBasal
  | Bolus e => bolus e
  | ChangeDeviceTime e => changeDeviceTime e
  | ChangeReservoir e => changeReservoir e
  | Resume e => resume e
  | PumpSettings e => pumpSettings e
  | Smbg e => smbg e
  | Suspend e => suspend e
  | Wizard e => wizard e
  end.

(** The record a call takes in. *)
Definition ingested (c : call) : option Event.t :=
  match c with
  | FinalBasal => None
  | Alarm e | Basal e | Bolus e | ChangeDeviceTime e | ChangeReservoir e
  | Resume e | PumpSettings e | Smbg e | Suspend e | Wizard e => Some e
  end.

(** A session: the calls one after the other, up to the first that throws. *)
Fixpoint session (cs : list call) : M unit :=
  match cs with
  | [] => JS.ret tt
  | c :: r => perform c ;;; session r
  end.

End Simulator.

End Tandem.

(** ** sundial

    The two functions of the date library that are plain arithmetic on
    instants. Those that consult the timezone database are parameters of the
    resolver below. A [Date] is its milliseconds since the epoch. *)

Module sundial.

(** [sundial.applyOffset(date, minutes)] *)
Definition applyOffset (date : Z) (minutes : Z) : Z :=
  date + minutes * Date.MS_PER_MINUTE.

(** [sundial.dateDifference(a, b, 'minutes')]: [a - b] in whole minutes,
    cut toward zero; [None] is the [NaN] of an unreadable date. Device times
    are read as UTC in the format the drivers write them in,
    [YYYY-MM-DDTHH:mm:ss] with or without [.sss] and [Z]. The library reads
    other ISO 8601 variants too (dates alone, basic format, zone offsets);
    on those this model says [None], so a [None] of the model stands for
    [NaN] only on strings that are no date at all. *)
Definition dateDifference (a b : string) : option Z :=
  match Date.parse_iso false a, Date.parse_iso false b with
  | Some x, Some y => Some (Z.quot (x - y) Date.MS_PER_MINUTE)
  | _, _ => None
  end.

End sundial.

(** [Math.round(x / q) * q] for whole [x] and [q > 0]: [Math.round] takes a
    half upward. *)
Definition round_to (q x : Z) : Z := (2 * x + q) / (2 * q) * q.

(** ** The timezone offset resolver ([lib/TimezoneOffsetUtil.js]) *)

Module TimezoneOffsetUtil.

(** A date and time settings change, as the drivers build it. *)
Record timeChange : Type := TimeChange {
  subType : option string;
  index : Z;
  jsDate : option Z;
  change_from : string;
  change_to : string;
  time : option string;
  timezoneOffset : option Z
}.

Record interval : Type := Interval {
  start : option string;
  end_ : string;
  startIndex : option Z;
  endIndex : option Z;
  offset : Z
}.

(** What [lookup] returns: [{time: ..., timezoneOffset: ...}]. *)
Record utcInfo : Type := UtcInfo {
  info_time : string;
  info_timezoneOffset : Z
}.

Section Resolver.

(** [sundial.checkTimezoneName] (true: it does not throw),
    [sundial.applyTimezone] and [sundial.getOffsetFromZone]. *)
Variable checkTimezoneName : string -> bool.
Variable applyTimezone : Z -> string -> Z.
Variable getOffsetFromZone : string -> string -> Z.

Definition findOffsetDifference (event : timeChange) : option Z :=
  match sundial.dateDifference (change_from event) (change_to event) with
  | Some d => Some (round_to 15 d)
  | None => None
  end.

Definition MAX_DIFF : Z := 1560.

(** [adjustCurrentOffset(event)], as a function of [currentOffset]. A [NaN]
    difference fails the test and leaves the offset alone. *)
Definition adjustCurrentOffset (event : timeChange) (currentOffset : Z) : Z :=
  match findOffsetDifference event with
  | Some difference =>
      if Z.abs difference <=? MAX_DIFF then
        match sundial.dateDifference (change_from event) (change_to event) with
        | Some d => currentOffset + round_to 60 d
        | None => currentOffset
        end
      else currentOffset
  | None => currentOffset
  end.

(** The instant of a change's [jsDate]; the drivers always set it. *)
Definition date_of (c : timeChange) : Z :=
  match jsDate c with
  | Some d => d
  | None => 0
  end.

(** A change once the loop has given it [time] and [timezoneOffset] and
    deleted its [jsDate]. *)
Definition resolved (c : timeChange) (t : string) (o : Z) : timeChange :=
  {| subType := subType c; index := index c; jsDate := None;
     change_from := change_from c; change_to := change_to c;
     time := Some t; timezoneOffset := Some o |}.

(** The variables the loop over [sorted] updates. *)
Record loop : Type := Loop {
  offsetIntervals : list interval;
  currentOffset : Z;
  currentIndex : Z;
  lastTime : string;
  done_changes : list timeChange
}.

(** The body of the loop at [i === 0]. *)
Definition first_change (timezone mostRecent : string) (change : timeChange)
  : loop :=
  let t := Date.toISOString (applyTimezone (date_of change) timezone) in
  let o := getOffsetFromZone t timezone in
  {| offsetIntervals :=
       [ {| start := Some t; end_ := mostRecent; startIndex := None;
            endIndex := Some (index change); offset := o |} ];
     currentOffset := adjustCurrentOffset change o;
     currentIndex := index change;
     lastTime := t;
     done_changes := [resolved change t o] |}.

(** The body of the loop at [i > 0]. *)
Definition next_change (st : loop) (change : timeChange) : loop :=
  let t :=
    Date.toISOString
      (sundial.applyOffset (date_of change) (- currentOffset st)) in
  {| offsetIntervals :=
       (offsetIntervals st
        ++ [ {| start := Some t; end_ := lastTime st;
                startIndex := Some (currentIndex st);
                endIndex := Some (index change);
                offset := currentOffset st |} ])%list;
     currentOffset := adjustCurrentOffset change (currentOffset st);
     currentIndex := index change;
     lastTime := t;
     done_changes :=
       (done_changes st ++ [resolved change t (currentOffset st)])%list |}.

(** The interval pushed after the loop. *)
Definition last_interval (st : loop) : interval :=
  {| start := None; end_ := lastTime st;
     startIndex := Some (currentIndex st); endIndex := None;
     offset := currentOffset st |}.

(** [_.sortBy(changes, function(change) { return change.index; }).reverse()] *)
Definition sorted_changes (changes : list timeChange) : list timeChange :=
  rev (lodash.sortBy Z.leb index changes).

Definition is_timeChange (c : timeChange) : bool :=
  match subType c with
  | Some s => negb (String.eqb s "") && String.eqb s "timeChange"
  | None => false
  end.

(** The object the constructor returns. *)
Record t : Type := Make {
  timezone : string;
  intervals : list interval;
  records : list timeChange
}.

Definition process (timezone mostRecent : string) (changes : list timeChange)
  : list interval * list timeChange :=
  match sorted_changes changes with
  | [] => ([], changes)
  | c :: rest =>
      let st := fold_left next_change rest (first_change timezone mostRecent c) in
      ((offsetIntervals st ++ [last_interval st])%list, done_changes st)
  end.

(** [new TimezoneOffsetUtil(timezone, mostRecent, changes)] *)
Definition create (timezone mostRecent : string) (changes : list timeChange)
  : JS.result t :=
  if negb (checkTimezoneName timezone) then
    JS.Throw (JS.Error "Unrecognized timezone name!")
  else if is_nan (Date.parse mostRecent) then
    JS.Throw (JS.Error "Invalid timestamp for most recent datum!")
  else if negb (forallb is_timeChange changes) then
    JS.Throw (JS.Error "Wrong subType of object passed as `timeChange`.")
  else
    let '(ivs, recs) := process timezone mostRecent changes in
    JS.Ok {| timezone := timezone; intervals := ivs; records := recs |}.

(** [utc >= start], [start] being a string or [null]: against [null] the
    timestamp is converted to a number, which it is not. *)
Definition ge_start (utc : string) (s : option string) : bool :=
  match s with
  | Some s => String.leb s utc
  | None => false
  end.

Definition is_null (A : Type) (x : option A) : bool :=
  match x with
  | Some _ => false
  | None => true
  end.

(** The test one turn of the loop of [lookup] makes on [currentInterval]. *)
Definition covers (iv : interval) (utc : string) (idx : option Z) : bool :=
  match idx with
  | Some i =>
      match startIndex iv, endIndex iv with
      | Some s, Some e => (i <? s) && (i >? e)
      | None, Some e => i >? e
      | Some s, None => i <? s
      | None, None => false
      end
  | None =>
      if ge_start utc (start iv) && String.leb utc (end_ iv) then true
      else is_null (start iv) && String.leb utc (end_ iv)
  end.

Fixpoint scan (ivs : list interval) (datetime : Z) (idx : option Z)
  : option utcInfo :=
  match ivs with
  | [] => None
  | currentInterval :: r =>
      let utc :=
        Date.toISOString
          (sundial.applyOffset datetime (- offset currentInterval)) in
      if covers currentInterval utc idx
      then Some {| info_time := utc;
                   info_timezoneOffset := offset currentInterval |}
      else scan r datetime idx
  end.

(** [this.lookup(datetime, index)]; [None] is the [undefined] of a call that
    falls off the end of the loop. *)
Definition lookup (self : t) (datetime : Z) (idx : option Z)
  : option utcInfo :=
  match intervals self with
  | [] =>
      let utc := Date.toISOString (applyTimezone datetime (timezone self)) in
      Some {| info_time := utc;
              info_timezoneOffset := getOffsetFromZone utc (timezone self) |}
  | _ :: _ => scan (intervals self) datetime idx
  end.

(** The object [fillInUTCInfo] fills in, by the properties it reads and
    writes. *)
Record datum : Type := Datum {
  datum_index : option Z;
  datum_time : option string;
  datum_timezoneOffset : option Z
}.

(** [obj.index || null]: an absent index and the index 0 are both falsy. *)
Definition index_or_null (i : option Z) : option Z :=
  match i with
  | Some 0 => None
  | Some i => Some i
  | None => None
  end.

Definition TYPE_ERROR : string :=
  "TypeError: Cannot read property 'time' of undefined".

(** [this.fillInUTCInfo(obj, jsDate)]. When [lookup] returns nothing the two
    [console.log] calls run and [res.time] throws. *)
Definition fillInUTCInfo (self : t) (obj : datum) (jsDate : Z)
  : JS.result datum :=
  match lookup self jsDate (index_or_null (datum_index obj)) with
  | Some res =>
      JS.Ok {| datum_index := datum_index obj;
               datum_time := Some (info_time res);
               datum_timezoneOffset := Some (info_timezoneOffset res) |}
  | None => JS.Throw (JS.Error TYPE_ERROR)
  end.

End Resolver.

End TimezoneOffsetUtil.

(** ** The termination matcher

    The simulator behind [test/insulet/testInsuletSimulator.js] is
    [lib/insulet/insuletSimulator.js], which is not among the sources: the
    Tandem simulator above passes boluses and wizards through and has no
    termination notices. Its dose and termination operations are modelled
    here from the specification, sections 4.1 and 4.3. *)

Module Reconciler.

(** Modelled from the spec: the termination notice of section 3, which
    "carries missed-dose amount and remaining-duration". *)
Record termination : Type := Termination {
  term_time : string;
  missedInsulin : JS.number;
  durationLeft : JS.number
}.

(** Modelled from the spec: the phases of a dose (section 4.3), "immediate
    phase first, extended phase second". *)
Inductive phase : Type :=
| Immediate
| Extended.

(** Modelled from the spec: the state of the reconciler (section 4.1), less
    the open segment, the pending suspend and the settings, which the
    operations modelled here do not touch. [mostRecentDose] is the place in
    [events] of the record that holds the dose, [outstanding] the phases of
    it not yet settled. *)
Record state : Type := State {
  events : list Event.t;
  lastRecordTime : option string;
  mostRecentDose : option nat;
  outstanding : list phase
}.

Definition M := JS.M state.

(** Modelled from the spec: a new session, with nothing taken in and no
    dose. *)
Definition init : state :=
  {| events := []; lastRecordTime := None;
     mostRecentDose := None; outstanding := [] |}.

Definition set_events (l : list Event.t) (s : state) : state :=
  {| events := l; lastRecordTime := lastRecordTime s;
     mostRecentDose := mostRecentDose s; outstanding := outstanding s |}.

Definition set_lastRecordTime (t : option string) (s : state) : state :=
  {| events := events s; lastRecordTime := t;
     mostRecentDose := mostRecentDose s; outstanding := outstanding s |}.

Definition set_dose (d : option nat) (ps : list phase) (s : state) : state :=
  {| events := events s; lastRecordTime := lastRecordTime s;
     mostRecentDose := d; outstanding := ps |}.

(** Modelled from the spec: "each first enforces: new record's absolute
    time must be >= the time of the previously ingested record; violation
    fails with an OrderingViolation". *)
Definition enforceOrder (t : string) : M unit :=
  last <- JS.gets lastRecordTime ;;
  if JS.gt last t then JS.throw (JS.Error "OrderingViolation")
  else JS.modify (set_lastRecordTime (Some t)).

(** Modelled from the spec: to emit is to "append to an internal ordered
    output list". *)
Definition emit (e : Event.t) : M unit :=
  JS.modify (fun s => set_events (events s ++ [e]) s).

(** Modelled from the spec: the phases of a dose (section 4.3) - "a simple
    dose has one phase; a combined immediate+extended dose has two phases,
    ordered: immediate phase first, extended phase second". A phase is there
    when its volume is declared. *)
Definition phases (dose : Event.t) : list phase :=
  (match Event.normal dose with Some _ => [Immediate] | None => [] end)
  ++ (match Event.extended dose with Some _ => [Extended] | None => [] end).

(** Modelled from the spec: the dose about to be emitted becomes
    [mostRecentDose], all its phases outstanding. *)
Definition register (dose : Event.t) : M unit :=
  n <- JS.gets (fun s => length (events s)) ;;
  JS.modify (set_dose (Some n) (phases dose)).

(** Modelled from the spec: [ingestBolus] / [ingestWizard] - "pass through,
    and register the bolus (or the bolus embedded in the wizard) as
    mostRecentDose". *)
Definition ingestBolus (record : Event.t) : M unit :=
  enforceOrder (Event.time record) ;;;
  register record ;;;
  emit record.

(** Modelled from the spec: [ingestWizard], which registers "the bolus
    embedded in the wizard". *)
Definition ingestWizard (record : Event.t) : M unit :=
  enforceOrder (Event.time record) ;;;
  match Event.bolus record with
  | Some b => register b
  | None => JS.ret tt
  end ;;;
  emit record.

(** Modelled from the spec: the sum of a declared value and a reported one
    in the amendments of section 4.3; an undeclared value makes it [NaN], as
    arithmetic on an absent property does. *)
Definition plus (declared : option JS.number) (x : JS.number) : JS.number :=
  match declared with
  | Some d => (d + x)%float
  | None => nan
  end.

Definition set_expectedNormal (x : JS.number) (e : Event.t) : Event.t :=
  Event.Build (Event.type e) (Event.subType e) (Event.time e) (Event.index e)
    (Event.deliveryType e) (Event.rate e) (Event.duration e) (Event.normal e)
    (Event.extended e) (Some x) (Event.expectedExtended e)
    (Event.expectedDuration e) (Event.bolus e) (Event.previous e)
    (Event.annotations e) (Event.rest e).

Definition set_expectedExtended (x d : JS.number) (e : Event.t) : Event.t :=
  Event.Build (Event.type e) (Event.subType e) (Event.time e) (Event.index e)
    (Event.deliveryType e) (Event.rate e) (Event.duration e) (Event.normal e)
    (Event.extended e) (Event.expectedNormal e) (Some x) (Some d)
    (Event.bolus e) (Event.previous e) (Event.annotations e) (Event.rest e).

Definition set_bolus (b : option Event.t) (e : Event.t) : Event.t :=
  Event.Build (Event.type e) (Event.subType e) (Event.time e) (Event.index e)
    (Event.deliveryType e) (Event.rate e) (Event.duration e) (Event.normal e)
    (Event.extended e) (Event.expectedNormal e) (Event.expectedExtended e)
    (Event.expectedDuration e) b (Event.previous e) (Event.annotations e)
    (Event.rest e).

(** Modelled from the spec: the amendments of section 4.3 -
    "expectedNormal = declaredImmediateVolume + missedVolume";
    "expectedExtended = declaredExtendedVolume + missedVolume;
    expectedDuration = declaredExtendedDuration + remainingDuration". *)
Definition amend (p : phase) (term : termination) (dose : Event.t) : Event.t :=
  match p with
  | Immediate =>
      set_expectedNormal (plus (Event.normal dose) (missedInsulin term)) dose
  | Extended =>
      set_expectedExtended
        (plus (Event.extended dose) (missedInsulin term))
        (plus (Event.duration dose) (durationLeft term)) dose
  end.

(** Modelled from the spec: the dose is amended "in place", where it is:
    the bolus itself, or the bolus inside the wizard. *)
Definition amend_record (p : phase) (term : termination) (e : Event.t)
  : Event.t :=
  if String.eqb (Event.type e) "wizard" then
    match Event.bolus e with
    | Some b => set_bolus (Some (amend p term b)) e
    | None => e
    end
  else amend p term e.

(** The list with its element at [n] replaced by [f] of it; out of range
    nothing changes. *)
Fixpoint update (A : Type) (f : A -> A) (n : nat) (l : list A) : list A :=
  match l, n with
  | [], _ => []
  | x :: r, O => f x :: r
  | x :: r, S k => x :: update f k r
  end.

(** Modelled from the spec: [ingestTermination] - "apply it to the next
    outstanding phase, then mark that phase settled". A notice that matches
    no outstanding phase changes nothing (the spec leaves this open). *)
Definition ingestTermination (term : termination) : M unit :=
  enforceOrder (term_time term) ;;;
  dose <- JS.gets mostRecentDose ;;
  ps <- JS.gets outstanding ;;
  match dose, ps with
  | Some n, p :: rest =>
      JS.modify (fun s => set_events (update (amend_record p term) n (events s)) s) ;;;
      JS.modify (set_dose (Some n) rest)
  | _, _ => JS.ret tt
  end.

(** Modelled from the spec: a dose has "no amendment" when the property is
    not there. *)
Definition absent (x : option JS.number) : bool :=
  match x with
  | Some _ => false
  | None => true
  end.

(** Modelled from the spec: "a dose with zero immediately-delivered volume
    and no amendment is never included in the final output". *)
Definition zero_effect (dose : Event.t) : bool :=
  JS.strict_eq_zero (Event.normal dose) && absent (Event.expectedNormal dose).

(** Modelled from the spec: the events that stay in the output; the dose
    of a wizard is its embedded bolus. *)
Definition retained (e : Event.t) : bool :=
  if String.eqb (Event.type e) "bolus" then negb (zero_effect e)
  else if String.eqb (Event.type e) "wizard" then
    match Event.bolus e with
    | Some b => negb (zero_effect b)
    | None => true
    end
  else true.

(** Modelled from the spec: [drainOutput] - "returns the accumulated events,
    with zero-effect doses filtered and the whole sequence re-sorted by
    absolute time [...] stable on ties by original ingestion order". *)
Definition drainOutput : M (list Event.t) :=
  l <- JS.gets events ;;
  JS.ret (lodash.sortBy String.leb Event.time (filter retained l)).

End Reconciler.

(** * What the properties are stated with *)

(** The record [e] is stamped strictly before the record taken in last:
    [currTimestamp > e.time] in the program's own comparison. On timestamps
    of one width, as [toISOString] prints them, the order of code units is
    the order of time. *)
Definition earlier_than_last (Settings : Type) (s : Tandem.state Settings)
  (e : Event.t) : Prop :=
  exists last, Tandem.currTimestamp s = Some last
               /\ String.ltb (Event.time e) last = true.

Ltac run_monad :=
  unfold JS.bind, JS.gets, JS.modify, JS.ret, JS.throw in *; simpl in *.


(** [previous], when there, has no [previous] of its own. *)
Definition single_level (e : Event.t) : Prop :=
  match Event.previous e with
  | Some p => Event.previous p = None
  | None => True
  end.

(** The events so far and the open segment have single-level
    back-references. *)
Definition shallow (Settings : Type) (s : Tandem.state Settings) : Prop :=
  Forall single_level (Tandem.events s)
  /\ (forall cb, Tandem.currBasal s = Some cb -> single_level cb).

(** A dose nothing was delivered of and nothing is expected of: [normal] is
    zero and [expectedNormal] is absent or is itself a falsy number. *)
Definition zero_dose (dose : Event.t) : bool :=
  JS.strict_eq_zero (Event.normal dose)
  && JS.not_ (Event.expectedNormal dose).

(** The events [getEvents] leaves out: the zero boluses, and the wizards
    whose bolus is one. *)
Definition left_out (e : Event.t) : bool :=
  (String.eqb (Event.type e) "bolus" && zero_dose e)
  || (String.eqb (Event.type e) "wizard"
      && match Event.bolus e with
         | Some b => zero_dose b
         | None => false
         end).

(** [a] comes no later than [b] in the order [_.sortBy] sorts into. *)
Definition ascending (A K : Type) (leb : K -> K -> bool) (key : A -> K)
  (a b : A) : Prop :=
  leb (key a) (key b) = true.

(** The times are in the order in which [ensureTimestamp] (and the
    [enforceOrder] of the model) lets them through, [last] being the time on
    record. *)
Fixpoint in_order (last : option string) (times : list string) : Prop :=
  match times with
  | [] => True
  | t :: r => JS.gt last t = false /\ in_order (Some t) r
  end.

(** What a record declares: all of it but the three expected values that a
    termination notice writes. *)
Definition declared (e : Event.t) :=
  (Event.type e, Event.subType e, Event.time e, Event.index e,
   Event.deliveryType e, Event.rate e, Event.duration e, Event.normal e,
   Event.extended e, Event.bolus e, Event.previous e, Event.annotations e,
   Event.rest e).

(** The sequence indices of the changes. *)
Definition indices (changes : list TimezoneOffsetUtil.timeChange) : list Z :=
  map TimezoneOffsetUtil.index changes.

(** No index among [L] falls inside the index bounds of the interval. *)
Definition misses (L : list Z) (iv : TimezoneOffsetUtil.interval) : Prop :=
  forall x utc, In x L -> TimezoneOffsetUtil.covers iv utc (Some x) = false.

(** [a] comes no later than [b] in the order the changes are processed in:
    the most recent, of greatest index, first. *)
Definition descending (a b : TimezoneOffsetUtil.timeChange) : Prop :=
  TimezoneOffsetUtil.index b <= TimezoneOffsetUtil.index a.

(** The nearest multiple of the quantum [q], a half taken upward. *)
Definition nearest_multiple (q x r : Z) : Prop :=
  (exists k, r = k * q) /\ - q <= 2 * (x - r) < q.

(** A call that passes its record through: any but [basal] and
    [finalBasal]. *)
Definition passes_through (c : Tandem.call) : bool :=
  match c with
  | Tandem.Basal _ | Tandem.FinalBasal => false
  | _ => true
  end.

(** The records a list of calls takes in, in the order of the calls. *)
Definition records (cs : list Tandem.call) : list Event.t :=
  flat_map (fun c => match Tandem.ingested c with
                     | Some e => [e]
                     | None => []
                     end) cs.

(** [a] is stamped no later than [b], by code units. *)
Definition no_later (a b : Event.t) : Prop :=
  String.leb (Event.time a) (Event.time b) = true.

(** The times go strictly up, by code units, from [last] on. *)
Fixpoint ascending_times (last : option string) (ts : list string) : Prop :=
  match ts with
  | [] => True
  | t :: r =>
      match last with
      | Some l => String.ltb l t = true
      | None => True
      end
      /\ ascending_times (Some t) r
  end.

(** The open segment [cb] with the duration the arrival of [e] leaves it
    with. *)
Definition closed_by (e cb : Event.t) : Event.t :=
  match Event.duration cb with
  | Some _ => cb
  | None =>
      Event.set_duration
        (Some (Date.parse (Event.time e) - Date.parse (Event.time cb))%float)
        cb
  end.

(** What the segments [bs], arriving one after the other while [open] is
    the open segment, leave behind: the segments closed, and the segment
    open at the end. *)
Fixpoint closings (open : Event.t) (bs : list Event.t)
  : list Event.t * Event.t :=
  match bs with
  | [] => ([], open)
  | b :: r =>
      let closed := closed_by b open in
      let next := Event.set_previous (Some (Event.omit_previous closed)) b in
      (closed :: fst (closings next r), snd (closings next r))
  end.

(** Each event after the first carries the one before it, less its own
    [previous], as its [previous]. *)
Fixpoint linked (l : list Event.t) : Prop :=
  match l with
  | x :: r =>
      match r with
      | y :: _ => Event.previous y = Some (Event.omit_previous x)
      | [] => True
      end
      /\ linked r
  | [] => True
  end.

(** The index bounds of an interval. *)
Definition bounds (iv : TimezoneOffsetUtil.interval) : option Z * option Z :=
  (TimezoneOffsetUtil.startIndex iv, TimezoneOffsetUtil.endIndex iv).

(** The offsets in force between the changes [cs], most recent first, [o]
    being the offset after the most recent of them. *)
Fixpoint offsets_from (o : Z) (cs : list TimezoneOffsetUtil.timeChange)
  : list Z :=
  match cs with
  | [] => [o]
  | c :: r => o :: offsets_from (TimezoneOffsetUtil.adjustCurrentOffset c o) r
  end.

(** Each interval starts where the one pushed after it ends. *)
Fixpoint contiguous (ivs : list TimezoneOffsetUtil.interval) : Prop :=
  match ivs with
  | x :: r =>
      match r with
      | y :: _ =>
          TimezoneOffsetUtil.start x = Some (TimezoneOffsetUtil.end_ y)
      | [] => True
      end
      /\ contiguous r
  | [] => True
  end.

(** What a change is handed in with: all of it but the date. *)
Definition handed_in (c : TimezoneOffsetUtil.timeChange)
  : option string * Z * string * string :=
  (TimezoneOffsetUtil.subType c, TimezoneOffsetUtil.index c,
   TimezoneOffsetUtil.change_from c, TimezoneOffsetUtil.change_to c).

(** What the loop fills in on a change, and where the interval it pushes
    for that change has the same. *)
Definition filled_in (c : TimezoneOffsetUtil.timeChange)
  : option string * option Z * option Z :=
  (TimezoneOffsetUtil.time c, TimezoneOffsetUtil.timezoneOffset c,
   Some (TimezoneOffsetUtil.index c)).

Definition opened (iv : TimezoneOffsetUtil.interval)
  : option string * option Z * option Z :=
  (TimezoneOffsetUtil.start iv, Some (TimezoneOffsetUtil.offset iv),
   TimezoneOffsetUtil.endIndex iv).

(** The intervals of the loop and the one pushed after it. *)
Definition all_intervals (st : TimezoneOffsetUtil.loop)
  : list TimezoneOffsetUtil.interval :=
  (TimezoneOffsetUtil.offsetIntervals st
   ++ [TimezoneOffsetUtil.last_interval st])%list.

(** ** The records of the test suite *)

Module Vectors.

Definition record (type time : string) : Event.t :=
  {| Event.type := type; Event.subType := None; Event.time := time;
     Event.index := None; Event.deliveryType := None; Event.rate := None;
     Event.duration := None; Event.normal := None; Event.extended := None;
     Event.expectedNormal := None; Event.expectedExtended := None;
     Event.expectedDuration := None; Event.bolus := None;
     Event.previous := None; Event.annotations := [];
     Event.rest := [("deviceId", "InsOmn1234")] |}.

(** [builder.makeScheduledBasal().with_time(t).with_rate(r)] and its
    siblings for the other kinds of delivery. *)
Definition segment (kind time : string) (rate duration : option JS.number)
  : Event.t :=
  let e := record "basal" time in
  Event.Build (Event.type e) (Event.subType e) (Event.time e) (Event.index e)
    (Some kind) rate duration (Event.normal e) (Event.extended e)
    (Event.expectedNormal e) (Event.expectedExtended e)
    (Event.expectedDuration e) (Event.bolus e) (Event.previous e)
    (Event.annotations e) (Event.rest e).

Definition basal1 : Event.t :=
  segment "scheduled" "2014-09-25T02:00:00.000Z" (Some 0.75%float) None.
Definition basal2 : Event.t :=
  segment "scheduled" "2014-09-25T03:00:00.000Z" (Some 0.85%float) None.
Definition basal3 : Event.t :=
  segment "scheduled" "2014-09-25T03:30:00.000Z" (Some 0.90%float) None.
Definition temp : Event.t :=
  segment "temp" "2014-09-25T18:05:00.000Z" (Some 1.3%float)
    (Some 1800000%float).
Definition suspendBasal : Event.t :=
  segment "suspend" "2014-09-25T18:05:00.000Z" None None.
(** A suspended segment whose duration the driver has declared. *)
Definition suspendBasal30 : Event.t :=
  segment "suspend" "2014-09-25T18:05:00.000Z" None (Some 1800000%float).

Definition dose (time subType : string)
  (normal extended duration expectedNormal : option JS.number) : Event.t :=
  let e := record "bolus" time in
  Event.Build (Event.type e) (Some subType) (Event.time e) (Event.index e)
    (Event.deliveryType e) (Event.rate e) duration normal extended
    expectedNormal (Event.expectedExtended e)
    (Event.expectedDuration e) (Event.bolus e) (Event.previous e)
    (Event.annotations e) (Event.rest e).

Definition normalBolus : Event.t :=
  dose "2014-09-25T01:00:00.000Z" "normal" (Some 1.3%float) None None None.
Definition zeroBolus : Event.t :=
  dose "2014-09-25T01:05:00.000Z" "normal" (Some 0%float) None None None.
(** A zero bolus amended with an expected volume of zero. *)
Definition zeroBolusExpectedZero : Event.t :=
  dose "2014-09-25T01:05:00.000Z" "normal" (Some 0%float) None None
    (Some 0%float).
Definition squareBolus : Event.t :=
  dose "2014-09-25T01:00:00.000Z" "square" None (Some 1.4%float)
    (Some 1800000%float) None.
Definition dualBolus : Event.t :=
  dose "2014-09-25T01:00:00.000Z" "dual/square" (Some 1.3%float)
    (Some 1.4%float) (Some 0%float) None.

Definition term1 : Reconciler.termination :=
  {| Reconciler.term_time := "2014-09-25T01:00:05.000Z";
     Reconciler.missedInsulin := 2.7%float;
     Reconciler.durationLeft := 0%float |}.
Definition term2 : Reconciler.termination :=
  {| Reconciler.term_time := "2014-09-25T01:00:05.000Z";
     Reconciler.missedInsulin := 1.4%float;
     Reconciler.durationLeft := 3600000%float |}.

Definition status (time kind : string) : Event.t :=
  let e := record "deviceEvent" time in
  Event.Build (Event.type e) (Some "status") (Event.time e) (Event.index e)
    (Event.deliveryType e) (Event.rate e) (Event.duration e) (Event.normal e)
    (Event.extended e) (Event.expectedNormal e) (Event.expectedExtended e)
    (Event.expectedDuration e) (Event.bolus e) (Event.previous e)
    (Event.annotations e) (("status", kind) :: Event.rest e).

Definition suspend1 : Event.t := status "2014-09-25T01:00:00.000Z" "suspended".
Definition suspend2 : Event.t := status "2014-09-25T01:05:00.000Z" "suspended".
Definition resume1 : Event.t := status "2014-09-25T02:00:00.000Z" "resumed".
Definition resume2 : Event.t := status "2014-09-25T02:30:00.000Z" "resumed".

(** A clock set back by three quarters of an hour. *)
Definition quarterChange : TimezoneOffsetUtil.timeChange :=
  {| TimezoneOffsetUtil.subType := Some "timeChange";
     TimezoneOffsetUtil.index := 10;
     TimezoneOffsetUtil.jsDate := Some 1411609500000;
     TimezoneOffsetUtil.change_from := "2014-09-25T01:45:00";
     TimezoneOffsetUtil.change_to := "2014-09-25T01:00:00";
     TimezoneOffsetUtil.time := None;
     TimezoneOffsetUtil.timezoneOffset := None |}.

(** A change whose old clock reading is no date. *)
Definition unreadableChange : TimezoneOffsetUtil.timeChange :=
  {| TimezoneOffsetUtil.subType := Some "timeChange";
     TimezoneOffsetUtil.index := 10;
     TimezoneOffsetUtil.jsDate := Some 1411609500000;
     TimezoneOffsetUtil.change_from := "Invalid date";
     TimezoneOffsetUtil.change_to := "2014-09-25T01:00:00";
     TimezoneOffsetUtil.time := None;
     TimezoneOffsetUtil.timezoneOffset := None |}.

(** An earlier change, by a whole hour. *)
Definition hourChange : TimezoneOffsetUtil.timeChange :=
  {| TimezoneOffsetUtil.subType := Some "timeChange";
     TimezoneOffsetUtil.index := 5;
     TimezoneOffsetUtil.jsDate := Some 1411520400000;
     TimezoneOffsetUtil.change_from := "2014-09-24T01:00:00";
     TimezoneOffsetUtil.change_to := "2014-09-24T02:00:00";
     TimezoneOffsetUtil.time := None;
     TimezoneOffsetUtil.timezoneOffset := None |}.

(** Stand-ins for the timezone database: every name is known and every
    zone is UTC. *)
Definition anyName (_ : string) : bool := true.
Definition utcDate (d : Z) (_ : string) : Z := d.
Definition utcOffset (_ _ : string) : Z := 0.

(** The resolver of those stand-ins for the changes [changes], the most
    recent datum being of the 26th. *)
Definition twoChanges : list TimezoneOffsetUtil.timeChange :=
  [hourChange; quarterChange].

Definition resolver (changes : list TimezoneOffsetUtil.timeChange)
  : JS.result TimezoneOffsetUtil.t :=
  TimezoneOffsetUtil.create anyName utcDate utcOffset "UTC"
    "2014-09-26T00:00:00.000Z" changes.

(** A simulator without settings, and a stand-in for the schedule
    finalizer, which such a simulator never calls. *)
Definition noFinalizer (b : Event.t) (_ : unit) (_ : string) : Event.t := b.

Definition fresh : Tandem.state unit := Tandem.make None.

(** The simulator after the calls [cs]. *)
Definition after (cs : list Tandem.call) : Tandem.state unit :=
  snd (Tandem.session noFinalizer cs fresh).

End Vectors.

(** * Properties *)

Unset Implicit Arguments.
Local Open Scope list_scope.

(** ** Ordering of the ingested records *)

Section TandemOrdering.

Variable Settings : Type.
Variable finalScheduledBasal : Event.t -> Settings -> string -> Event.t.

Lemma gt_earlier (s : Tandem.state Settings) (e : Event.t) :
  JS.gt (Tandem.currTimestamp s) (Event.time e) = true
  <-> earlier_than_last s e.
Proof.
  unfold JS.gt, earlier_than_last. split.
  - destruct (Tandem.currTimestamp s) as [last|]; [|discriminate].
    intros H. exists last. split; [reflexivity | exact H].
  - intros [last [-> H]]. exact H.
Qed.

Lemma ensureTimestamp_throws (s : Tandem.state Settings) (e : Event.t) :
  JS.gt (Tandem.currTimestamp s) (Event.time e) = true ->
  Tandem.ensureTimestamp e s = (JS.Throw (JS.Error Tandem.ORDER_MESSAGE), s).
Proof.
  intros H. unfold Tandem.ensureTimestamp. run_monad. rewrite H. reflexivity.
Qed.

Lemma ensureTimestamp_passes (s : Tandem.state Settings) (e : Event.t) :
  JS.gt (Tandem.currTimestamp s) (Event.time e) = false ->
  Tandem.ensureTimestamp e s
  = (JS.Ok e, Tandem.set_currTimestamp (Some (Event.time e)) s).
Proof.
  intros H. unfold Tandem.ensureTimestamp. run_monad. rewrite H. reflexivity.
Qed.

Lemma simpleSimulate_throws (s : Tandem.state Settings) (e : Event.t) :
  JS.gt (Tandem.currTimestamp s) (Event.time e) = true ->
  Tandem.simpleSimulate e s = (JS.Throw (JS.Error Tandem.ORDER_MESSAGE), s).
Proof.
  intros H. unfold Tandem.simpleSimulate, JS.bind.
  rewrite (ensureTimestamp_throws _ _ H). reflexivity.
Qed.

Lemma simpleSimulate_passes (s : Tandem.state Settings) (e : Event.t) :
  JS.gt (Tandem.currTimestamp s) (Event.time e) = false ->
  Tandem.simpleSimulate e s
  = (JS.Ok tt,
     Tandem.set_events (Tandem.events s ++ [e])
       (Tandem.set_currTimestamp (Some (Event.time e)) s)).
Proof.
  intros H. unfold Tandem.simpleSimulate, JS.bind.
  rewrite (ensureTimestamp_passes _ _ H). reflexivity.
Qed.

Lemma basal_throws (s : Tandem.state Settings) (e : Event.t) :
  JS.gt (Tandem.currTimestamp s) (Event.time e) = true ->
  Tandem.basal e s = (JS.Throw (JS.Error Tandem.ORDER_MESSAGE), s).
Proof.
  intros H. unfold Tandem.basal, JS.bind.
  rewrite (ensureTimestamp_throws _ _ H). reflexivity.
Qed.

(** A segment that is in order never makes [basal] throw, and the time on
    record afterwards is its own. *)
Lemma basal_passes (s : Tandem.state Settings) (e : Event.t) :
  JS.gt (Tandem.currTimestamp s) (Event.time e) = false ->
  exists s', Tandem.basal e s = (JS.Ok tt, s')
             /\ Tandem.currTimestamp s' = Some (Event.time e).
Proof.
  intros H. unfold Tandem.basal, JS.bind at 1.
  rewrite (ensureTimestamp_passes _ _ H).
  unfold Tandem.setCurrBasal, Tandem.push. run_monad.
  destruct (Tandem.currBasal s) as [cb|]; simpl.
  - destruct (negb (Event.time cb =? Event.time e)%string); simpl;
      eexists; split; reflexivity.
  - eexists; split; reflexivity.
Qed.

(** C1. Every operation that takes in a record (alarm, basal, bolus,
    changeDeviceTime, changeReservoir, resume, pumpSettings, smbg, suspend,
    wizard) first compares the record's time with the time of the record
    taken in before. A record stamped strictly earlier makes the operation
    throw the ordering error, and the simulator is as it was: nothing is
    appended to the events. Otherwise the operation returns and the time on
    record is that of the new record. *)
Theorem ingestion_enforces_order
  (c : Tandem.call) (e : Event.t) (s : Tandem.state Settings) :
  Tandem.ingested c = Some e ->
  (earlier_than_last s e ->
   Tandem.perform finalScheduledBasal c s
   = (JS.Throw (JS.Error Tandem.ORDER_MESSAGE), s))
  /\ (~ earlier_than_last s e ->
      exists s', Tandem.perform finalScheduledBasal c s = (JS.Ok tt, s')
                 /\ Tandem.currTimestamp s' = Some (Event.time e)).
Proof.
  intros Hc. split.
  - intros Hlt. apply gt_earlier in Hlt.
    destruct c; simpl in Hc; inversion Hc; subst; simpl;
      solve [ apply simpleSimulate_throws; assumption
            | apply basal_throws; assumption ].
  - intros Hge.
    assert (Hgt : JS.gt (Tandem.currTimestamp s) (Event.time e) = false).
    { destruct (JS.gt (Tandem.currTimestamp s) (Event.time e)) eqn:G;
        [|reflexivity].
      exfalso. apply Hge. apply gt_earlier. exact G. }
    destruct c; simpl in Hc; inversion Hc; subst; simpl;
      solve [ apply basal_passes; assumption
            | eexists; split;
              [ apply simpleSimulate_passes; assumption | reflexivity ] ].
Qed.

End TandemOrdering.

Lemma ingestion_enforces_order_witness :
  Tandem.perform Vectors.noFinalizer (Tandem.Basal Vectors.basal1)
    (Vectors.after [Tandem.Basal Vectors.basal2])
  = (JS.Throw (JS.Error Tandem.ORDER_MESSAGE),
     Vectors.after [Tandem.Basal Vectors.basal2]).
Proof.
  apply (proj1 (ingestion_enforces_order unit Vectors.noFinalizer
                  (Tandem.Basal Vectors.basal1) Vectors.basal1
                  (Vectors.after [Tandem.Basal Vectors.basal2]) eq_refl)).
  exists "2014-09-25T03:00:00.000Z". split; reflexivity.
Defined.

(** ** Sorting *)

Section SortByFacts.

Variables (A K : Type) (leb : K -> K -> bool) (key : A -> K).

Let insert := lodash.insert leb key.
Let sortBy := lodash.sortBy leb key.

Lemma insert_perm (a : A) (l : list A) : Permutation (insert a l) (a :: l).
Proof.
  induction l as [|x r IH]; simpl.
  - apply Permutation_refl.
  - destruct (leb (key a) (key x)).
    + apply Permutation_refl.
    + apply perm_trans with (x :: a :: r).
      * apply perm_skip. exact IH.
      * apply perm_swap.
Qed.

Lemma sortBy_perm (l : list A) : Permutation (sortBy l) l.
Proof.
  induction l as [|a r IH]; simpl.
  - apply perm_nil.
  - apply perm_trans with (a :: sortBy r).
    + apply insert_perm.
    + apply perm_skip. exact IH.
Qed.

Lemma sortBy_Forall (P : A -> Prop) (l : list A) :
  Forall P l -> Forall P (sortBy l).
Proof.
  intros H. apply (Permutation_Forall (Permutation_sym (sortBy_perm l))).
  exact H.
Qed.

Hypothesis leb_total : forall x y, leb x y = true \/ leb y x = true.
Hypothesis leb_trans :
  forall x y z, leb x y = true -> leb y z = true -> leb x z = true.

Let ascending := ascending leb key.

Lemma insert_sorted (a : A) (l : list A) :
  StronglySorted ascending l -> StronglySorted ascending (insert a l).
Proof.
  induction l as [|x r IH]; simpl; intros Hs.
  - constructor; [constructor | constructor].
  - apply StronglySorted_inv in Hs. destruct Hs as [Hr Hx].
    destruct (leb (key a) (key x)) eqn:E.
    + constructor.
      * constructor; assumption.
      * constructor; [exact E|].
        apply Forall_forall. intros y Hy.
        rewrite Forall_forall in Hx.
        apply leb_trans with (key x); [exact E | apply Hx; exact Hy].
    + constructor.
      * apply IH. exact Hr.
      * apply (Permutation_Forall (Permutation_sym (insert_perm a r))).
        constructor; [|exact Hx].
        destruct (leb_total (key a) (key x)) as [H|H];
          [congruence | exact H].
Qed.

Lemma sortBy_sorted (l : list A) : StronglySorted ascending (sortBy l).
Proof.
  induction l as [|a r IH]; simpl.
  - constructor.
  - apply insert_sorted. exact IH.
Qed.

End SortByFacts.

(** ** Delivery segments *)

Ltac run_tandem :=
  unfold Tandem.basal, Tandem.finalBasal, Tandem.simpleSimulate,
    Tandem.ensureTimestamp, Tandem.setCurrBasal, Tandem.push,
    Tandem.getEvents, Tandem.filterOutZeroBoluses in *;
  run_monad.

Section TandemSegments.

Variable Settings : Type.
Variable finalScheduledBasal : Event.t -> Settings -> string -> Event.t.

Lemma not_earlier (s : Tandem.state Settings) (e : Event.t) :
  ~ earlier_than_last s e ->
  JS.gt (Tandem.currTimestamp s) (Event.time e) = false.
Proof.
  intros H. destruct (JS.gt (Tandem.currTimestamp s) (Event.time e)) eqn:G;
    [|reflexivity].
  exfalso. apply H. apply gt_earlier. exact G.
Qed.

(** Whatever was open, the segment that arrives becomes the open one with
    the duration it came with, declared or not. *)
Lemma segment_arrival_keeps_own_duration
  (s : Tandem.state Settings) (e : Event.t) :
  ~ earlier_than_last s e ->
  exists open s',
    Tandem.basal e s = (JS.Ok tt, s')
    /\ Tandem.currBasal s' = Some open
    /\ Event.duration open = Event.duration e.
Proof.
  intros H. apply not_earlier in H. run_tandem. rewrite H. simpl.
  destruct (Tandem.currBasal s) as [cb|]; simpl.
  - destruct (negb (Event.time cb =? Event.time e)%string); simpl;
      do 2 eexists; repeat split; reflexivity.
  - do 2 eexists; repeat split; reflexivity.
Qed.

(** C2. When a segment [e] arrives in order while a segment [cb] with
    another time is open, [cb] is closed and emitted: it is appended to the
    events as it was but for its duration, which is the time of [e] less the
    time of [cb] when [cb] had none declared, and the declared one otherwise.
    The segment [e] is now the open one, is not emitted, and keeps the
    duration it came with: an arrival never gives the last segment a
    duration. *)
Theorem segment_arrival_closes_open
  (s : Tandem.state Settings) (cb e : Event.t) :
  Tandem.currBasal s = Some cb ->
  ~ earlier_than_last s e ->
  Event.time cb <> Event.time e ->
  exists closed open s',
    Tandem.basal e s = (JS.Ok tt, s')
    /\ Tandem.events s' = (Tandem.events s ++ [closed])%list
    /\ closed = Event.set_duration (Event.duration closed) cb
    /\ (Event.duration cb = None ->
        Event.duration closed
        = Some (Date.parse (Event.time e) - Date.parse (Event.time cb))%float)
    /\ (forall d, Event.duration cb = Some d ->
                  Event.duration closed = Some d)
    /\ Tandem.currBasal s' = Some open
    /\ open = Event.set_previous (Some (Event.omit_previous closed)) e
    /\ Event.duration open = Event.duration e.
Proof.
  intros Hcb Hord Hne. apply not_earlier in Hord.
  apply String.eqb_neq in Hne.
  run_tandem. rewrite Hord. simpl. rewrite Hcb. rewrite Hne. simpl.
  unfold Builder.isAssigned_duration, Builder.with_duration, Builder.done.
  destruct cb as [ty st tm ix dt rt du nm ex en ee ed bo pr an re]. simpl.
  destruct du as [d|]; simpl;
    do 3 eexists; repeat split; try reflexivity; try discriminate.
  intros d' H. inversion H. reflexivity.
Qed.

End TandemSegments.

Lemma segment_arrival_closes_open_witness :
  exists closed open s',
    Tandem.basal Vectors.basal2 (Vectors.after [Tandem.Basal Vectors.basal1])
    = (JS.Ok tt, s')
    /\ Tandem.events s' = [closed]
    /\ closed = Event.set_duration (Event.duration closed) Vectors.basal1
    /\ (Event.duration Vectors.basal1 = None ->
        Event.duration closed
        = Some (Date.parse "2014-09-25T03:00:00.000Z"
                - Date.parse "2014-09-25T02:00:00.000Z")%float)
    /\ (forall d, Event.duration Vectors.basal1 = Some d ->
                  Event.duration closed = Some d)
    /\ Tandem.currBasal s' = Some open
    /\ open
       = Event.set_previous (Some (Event.omit_previous closed)) Vectors.basal2
    /\ Event.duration open = Event.duration Vectors.basal2.
Proof.
  apply (segment_arrival_closes_open unit
           (Vectors.after [Tandem.Basal Vectors.basal1])
           Vectors.basal1 Vectors.basal2).
  - reflexivity.
  - intros [last [H1 H2]]. inversion H1. subst last. discriminate H2.
  - apply String.eqb_neq. reflexivity.
Defined.

(** The first segment of the test suite, closed by the second an hour
    later, lasts 3600000 ms. *)
Example basal1_closed_after_an_hour :
  map Event.duration
    (Tandem.events
       (Vectors.after [Tandem.Basal Vectors.basal1;
                       Tandem.Basal Vectors.basal2]))
  = [Some 3600000%float].
Proof. vm_compute. reflexivity. Qed.

(** ** The back-reference *)

Section TandemPrevious.

Variable Settings : Type.
Variable finalScheduledBasal : Event.t -> Settings -> string -> Event.t.

(** The schedule finalizer sets a duration and annotations; it leaves
    [previous] alone. *)
Hypothesis finalizer_keeps_previous :
  forall (b : Event.t) (st : Settings) (source : string),
    Event.previous (finalScheduledBasal b st source) = Event.previous b.

Lemma omit_previous_single_level (closed e : Event.t) :
  single_level (Event.set_previous (Some (Event.omit_previous closed)) e).
Proof. unfold single_level. simpl. reflexivity. Qed.

Lemma finalize_previous (c : Tandem.config Settings) (cb : Event.t) :
  Event.previous (Tandem.finalize finalScheduledBasal c cb)
  = Event.previous cb.
Proof.
  unfold Tandem.finalize, Builder.done, Builder.with_duration,
    annotate.annotateEvent.
  destruct (Event.deliveryType cb) as [d|]; simpl.
  - destruct (d =? "scheduled")%string; simpl.
    + destruct (Tandem.settings c) as [st|]; simpl;
        [apply finalizer_keeps_previous | reflexivity].
    + destruct (d =? "temp")%string; simpl; [reflexivity|].
      destruct (Builder.isAssigned_duration cb); reflexivity.
  - destruct (Builder.isAssigned_duration cb); reflexivity.
Qed.

Lemma shallow_push (s : Tandem.state Settings) (e : Event.t) :
  shallow s -> single_level e ->
  Forall single_level (Tandem.events s ++ [e]).
Proof.
  intros [He _] H. apply Forall_app. split; [exact He|].
  constructor; [exact H | constructor].
Qed.

Lemma simpleSimulate_shallow (s : Tandem.state Settings) (e : Event.t) :
  single_level e -> shallow s -> shallow (snd (Tandem.simpleSimulate e s)).
Proof.
  intros He Hs.
  destruct (JS.gt (Tandem.currTimestamp s) (Event.time e)) eqn:G.
  - rewrite (simpleSimulate_throws _ _ _ G). exact Hs.
  - rewrite (simpleSimulate_passes _ _ _ G). split; simpl.
    + apply shallow_push; assumption.
    + apply Hs.
Qed.

Lemma set_duration_single_level (d : option JS.number) (e : Event.t) :
  single_level e -> single_level (Event.set_duration d e).
Proof. unfold single_level. simpl. trivial. Qed.

Lemma basal_shallow (s : Tandem.state Settings) (e : Event.t) :
  single_level e -> shallow s -> shallow (snd (Tandem.basal e s)).
Proof.
  intros He Hs.
  destruct (JS.gt (Tandem.currTimestamp s) (Event.time e)) eqn:G.
  - rewrite (basal_throws _ _ _ G). exact Hs.
  - run_tandem. rewrite G. simpl.
    destruct (Tandem.currBasal s) as [cb|] eqn:Hcb; simpl.
    + destruct (negb (Event.time cb =? Event.time e)%string); simpl.
      * split; simpl.
        -- apply Forall_app. split; [apply Hs|].
           constructor; [|constructor].
           unfold Builder.done, Builder.with_duration.
           destruct (negb (Builder.isAssigned_duration cb));
             [apply set_duration_single_level|]; apply (proj2 Hs cb Hcb).
        -- intros cb' H. inversion H. apply omit_previous_single_level.
      * split; simpl; [apply Hs|].
        intros cb' H. inversion H. subst. exact He.
    + split; simpl; [apply Hs|].
      intros cb' H. inversion H. subst. exact He.
Qed.

Lemma finalBasal_shallow (s : Tandem.state Settings) :
  shallow s -> shallow (snd (Tandem.finalBasal finalScheduledBasal s)).
Proof.
  intros Hs. run_tandem.
  destruct (Tandem.currBasal s) as [cb|] eqn:Hcb; simpl; [|exact Hs].
  assert (H : single_level (Tandem.finalize finalScheduledBasal
                              (Tandem.cfg s) cb)).
  { unfold single_level. rewrite finalize_previous.
    apply (proj2 Hs cb Hcb). }
  split; simpl.
  - apply Forall_app. split; [apply Hs|]. constructor; [exact H|constructor].
  - intros cb' E. inversion E. subst. exact H.
Qed.

Lemma perform_shallow (c : Tandem.call) (s : Tandem.state Settings) :
  (forall e, Tandem.ingested c = Some e -> single_level e) ->
  shallow s -> shallow (snd (Tandem.perform finalScheduledBasal c s)).
Proof.
  intros Hc Hs.
  destruct c; simpl;
    solve [ apply finalBasal_shallow; exact Hs
          | apply basal_shallow; [apply Hc; reflexivity | exact Hs]
          | apply simpleSimulate_shallow; [apply Hc; reflexivity | exact Hs] ].
Qed.

Lemma session_shallow (cs : list Tandem.call) (s : Tandem.state Settings) :
  (forall c e, In c cs -> Tandem.ingested c = Some e -> single_level e) ->
  shallow s -> shallow (snd (Tandem.session finalScheduledBasal cs s)).
Proof.
  revert s. induction cs as [|c r IH]; intros s Hin Hs; simpl.
  - exact Hs.
  - unfold JS.bind.
    pose proof (perform_shallow c s (fun e => Hin c e (or_introl eq_refl)) Hs)
      as H1.
    destruct (Tandem.perform finalScheduledBasal c s) as [[[]|err] s1];
      simpl in *.
    + apply IH; [|exact H1].
      intros c' e' Hc'. apply Hin. right. exact Hc'.
    + exact H1.
Qed.

(** [getEvents] never throws; what it returns and what it leaves behind. *)
Lemma getEvents_returns (s : Tandem.state Settings) :
  Tandem.getEvents s
  = (JS.Ok (lodash.sortBy String.leb Event.time
              (filter (@Tandem.keep) (map Event.delete_index (Tandem.events s)))),
     Tandem.set_events (map Event.delete_index (Tandem.events s)) s).
Proof. reflexivity. Qed.

Lemma getEvents_shallow (s : Tandem.state Settings) :
  shallow s ->
  exists out s', Tandem.getEvents s = (JS.Ok out, s')
                 /\ Forall single_level out.
Proof.
  intros [He _]. rewrite getEvents_returns. do 2 eexists.
  split; [reflexivity|]. apply sortBy_Forall.
  apply Forall_forall. intros x Hx.
  apply filter_In in Hx. destruct Hx as [Hx _].
  apply in_map_iff in Hx. destruct Hx as [y [<- Hy]].
  rewrite Forall_forall in He. exact (He y Hy).
Qed.

(** C3. Whatever is called on a new simulator, with records whose own
    [previous], if they come with one, is single-level: every event in the
    events array, and every event [getEvents] then returns, has a [previous]
    that has no [previous] of its own. The back-reference [basal] attaches
    is a copy of the closed segment without its [previous]. *)
Theorem previous_is_single_level
  (c : option (Tandem.config Settings)) (cs : list Tandem.call) :
  (forall call e, In call cs -> Tandem.ingested call = Some e ->
                  single_level e) ->
  let s := snd (Tandem.session finalScheduledBasal cs (Tandem.make c)) in
  Forall single_level (Tandem.events s)
  /\ (exists out s', Tandem.getEvents s = (JS.Ok out, s')
                     /\ Forall single_level out)
  /\ (forall e closed,
         single_level
           (Event.set_previous (Some (Event.omit_previous closed)) e)).
Proof.
  intros Hin s.
  assert (Hs : shallow s).
  { apply session_shallow; [exact Hin|].
    split; simpl; [constructor | discriminate]. }
  split; [apply Hs|]. split; [apply getEvents_shallow; exact Hs|].
  intros e closed. apply omit_previous_single_level.
Qed.

End TandemPrevious.

Lemma previous_is_single_level_witness :
  let s := Vectors.after [Tandem.Basal Vectors.basal1;
                          Tandem.Basal Vectors.basal2;
                          Tandem.Basal Vectors.basal3;
                          Tandem.FinalBasal] in
  Forall single_level (Tandem.events s)
  /\ (exists out s', Tandem.getEvents s = (JS.Ok out, s')
                     /\ Forall single_level out)
  /\ (forall e closed,
         single_level
           (Event.set_previous (Some (Event.omit_previous closed)) e)).
Proof.
  apply (previous_is_single_level unit Vectors.noFinalizer
           (fun _ _ _ => eq_refl) None
           [Tandem.Basal Vectors.basal1; Tandem.Basal Vectors.basal2;
            Tandem.Basal Vectors.basal3; Tandem.FinalBasal]).
  intros call e [<-|[<-|[<-|[<-|[]]]]] H; inversion H; exact I.
Defined.

(** The three scheduled segments of the test suite, an hour and then half
    an hour apart, and [finalBasal]: durations 3600000, 1800000 and 0, the
    last annotated, the second and third with a [previous]. *)
Example three_segments :
  exists out s',
    Tandem.getEvents
      (Vectors.after [Tandem.Basal Vectors.basal1;
                      Tandem.Basal Vectors.basal2;
                      Tandem.Basal Vectors.basal3;
                      Tandem.FinalBasal])
    = (JS.Ok out, s')
    /\ map Event.duration out
       = [Some 3600000%float; Some 1800000%float; Some 0%float]
    /\ map Event.annotations out = [[]; []; ["basal/unknown-duration"]]
    /\ map (fun e => TimezoneOffsetUtil.is_null (Event.previous e)) out
       = [true; false; false].
Proof.
  do 2 eexists. split; [reflexivity|]. vm_compute. repeat split.
Qed.

(** ** Repeated broadcasts *)

Section TandemDuplicates.

Variable Settings : Type.

(** A segment that arrives with the time of the open one closes nothing: no
    event is appended and no duration is computed. The segment that arrived
    is the open one from then on. *)
Lemma same_time_arrival_emits_nothing
  (s : Tandem.state Settings) (cb e : Event.t) :
  Tandem.currBasal s = Some cb ->
  ~ earlier_than_last s e ->
  Event.time cb = Event.time e ->
  exists s',
    Tandem.basal e s = (JS.Ok tt, s')
    /\ Tandem.events s' = Tandem.events s
    /\ Tandem.currBasal s' = Some e.
Proof.
  intros Hcb Hord Heq. apply not_earlier in Hord.
  apply String.eqb_eq in Heq.
  run_tandem. rewrite Hord. simpl. rewrite Hcb, Heq. simpl.
  eexists. repeat split.
Qed.

End TandemDuplicates.

(** C4. The second segment of the test suite broadcast twice. The repeat
    closes and emits nothing and computes no duration, but it does not
    leave the simulator as it was: the open segment, which carried the
    closed first segment as its [previous], is replaced by the repeat,
    which carries none, and that is how the segment is emitted later. *)
Theorem repeated_broadcast_replaces_open_segment :
  let s := Vectors.after [Tandem.Basal Vectors.basal1;
                          Tandem.Basal Vectors.basal2] in
  let s' := snd (Tandem.basal Vectors.basal2 s) in
  fst (Tandem.basal Vectors.basal2 s) = JS.Ok tt
  /\ Tandem.events s' = Tandem.events s
  /\ Tandem.currBasal s
     = Some (Event.set_previous
               (Some (Event.set_duration (Some 3600000%float) Vectors.basal1))
               Vectors.basal2)
  /\ Tandem.currBasal s' = Some Vectors.basal2
  /\ s' <> s
  /\ map Event.previous
       (Tandem.events
          (Vectors.after [Tandem.Basal Vectors.basal1;
                          Tandem.Basal Vectors.basal2;
                          Tandem.Basal Vectors.basal2;
                          Tandem.Basal Vectors.basal3]))
     = [None; None]
  /\ map Event.previous
       (Tandem.events
          (Vectors.after [Tandem.Basal Vectors.basal1;
                          Tandem.Basal Vectors.basal2;
                          Tandem.Basal Vectors.basal3]))
     = [None;
        Some (Event.set_duration (Some 3600000%float) Vectors.basal1)].
Proof.
  intros s s'. repeat split; try (vm_compute; reflexivity).
  intros H. apply (f_equal (@Tandem.currBasal unit)) in H.
  vm_compute in H. discriminate H.
Qed.

(** ** The end of the stream *)

Section TandemFinal.

Variable Settings : Type.
Variable finalScheduledBasal : Event.t -> Settings -> string -> Event.t.

Lemma finalBasal_emits (s : Tandem.state Settings) (cb : Event.t) :
  Tandem.currBasal s = Some cb ->
  Tandem.finalBasal finalScheduledBasal s
  = (JS.Ok tt,
     Tandem.set_events
       (Tandem.events s
        ++ [Tandem.finalize finalScheduledBasal (Tandem.cfg s) cb])
       (Tandem.set_currBasal
          (Some (Tandem.finalize finalScheduledBasal (Tandem.cfg s) cb)) s)).
Proof. intros H. run_tandem. rewrite H. reflexivity. Qed.

(** With no segment open, [finalBasal] does nothing. *)
Lemma finalBasal_idle (s : Tandem.state Settings) :
  Tandem.currBasal s = None ->
  Tandem.finalBasal finalScheduledBasal s = (JS.Ok tt, s).
Proof. intros H. run_tandem. rewrite H. reflexivity. Qed.

(** C5, as the code has it. [finalBasal] on an open segment [cb] returns
    and appends exactly one event, the finished segment, to the events there
    were. The finished segment is: [cb] as it is when [cb] is temporary; [cb] as it is when [cb] is suspended and has a
    declared duration; [cb] with duration 0 and the annotation
    basal/unknown-duration when [cb] is suspended with no declared duration,
    or scheduled and the simulator was made without settings; what the
    schedule finalizer returns when [cb] is scheduled and there are
    settings. *)
Theorem finalBasal_policy (s : Tandem.state Settings) (cb : Event.t) :
  Tandem.currBasal s = Some cb ->
  exists emitted s',
    Tandem.finalBasal finalScheduledBasal s = (JS.Ok tt, s')
    /\ Tandem.events s' = Tandem.events s ++ [emitted]
    /\ (Event.deliveryType cb = Some "temp" -> emitted = cb)
    /\ (Event.deliveryType cb = Some "suspend" ->
        forall d, Event.duration cb = Some d -> emitted = cb)
    /\ (Event.deliveryType cb = Some "suspend" ->
        Event.duration cb = None ->
        emitted
        = annotate.annotateEvent (Event.set_duration (Some 0%float) cb)
            "basal/unknown-duration")
    /\ (Event.deliveryType cb = Some "scheduled" ->
        Tandem.settings (Tandem.cfg s) = None ->
        emitted
        = annotate.annotateEvent (Event.set_duration (Some 0%float) cb)
            "basal/unknown-duration")
    /\ (Event.deliveryType cb = Some "scheduled" ->
        forall st, Tandem.settings (Tandem.cfg s) = Some st ->
                   emitted = finalScheduledBasal cb st "tandem").
Proof.
  intros Hcb. do 2 eexists. split; [apply finalBasal_emits; exact Hcb|].
  split; [reflexivity|].
  unfold Tandem.finalize, Builder.done, Builder.with_duration,
    Builder.isAssigned_duration.
  repeat split.
  - intros ->. reflexivity.
  - intros -> d ->. reflexivity.
  - intros -> ->. reflexivity.
  - intros -> ->. reflexivity.
  - intros -> st ->. reflexivity.
Qed.

End TandemFinal.

Lemma finalBasal_policy_witness :
  exists emitted s',
    Tandem.finalBasal Vectors.noFinalizer
      (Vectors.after [Tandem.Basal Vectors.suspendBasal])
    = (JS.Ok tt, s')
    /\ Tandem.events s'
       = Tandem.events (Vectors.after [Tandem.Basal Vectors.suspendBasal])
         ++ [emitted]
    /\ (Event.deliveryType Vectors.suspendBasal = Some "temp" ->
        emitted = Vectors.suspendBasal)
    /\ (Event.deliveryType Vectors.suspendBasal = Some "suspend" ->
        forall d, Event.duration Vectors.suspendBasal = Some d ->
                  emitted = Vectors.suspendBasal)
    /\ (Event.deliveryType Vectors.suspendBasal = Some "suspend" ->
        Event.duration Vectors.suspendBasal = None ->
        emitted
        = annotate.annotateEvent
            (Event.set_duration (Some 0%float) Vectors.suspendBasal)
            "basal/unknown-duration")
    /\ (Event.deliveryType Vectors.suspendBasal = Some "scheduled" ->
        Tandem.settings
          (Tandem.cfg (Vectors.after [Tandem.Basal Vectors.suspendBasal]))
        = None ->
        emitted
        = annotate.annotateEvent
            (Event.set_duration (Some 0%float) Vectors.suspendBasal)
            "basal/unknown-duration")
    /\ (Event.deliveryType Vectors.suspendBasal = Some "scheduled" ->
        forall st,
          Tandem.settings
            (Tandem.cfg (Vectors.after [Tandem.Basal Vectors.suspendBasal]))
          = Some st ->
          emitted = Vectors.noFinalizer Vectors.suspendBasal st "tandem").
Proof.
  apply (finalBasal_policy unit Vectors.noFinalizer
           (Vectors.after [Tandem.Basal Vectors.suspendBasal])
           Vectors.suspendBasal).
  reflexivity.
Defined.

(** C5 as it was stated fails: a suspended segment with a declared duration
    of half an hour is the open one; [finalBasal] emits it with that
    duration and no annotation, not with duration 0 and the annotation
    basal/unknown-duration. *)
Lemma finalBasal_suspended_declared_counterexample :
  let s := Vectors.after [Tandem.Basal Vectors.suspendBasal30] in
  Tandem.currBasal s = Some Vectors.suspendBasal30
  /\ Event.deliveryType Vectors.suspendBasal30 = Some "suspend"
  /\ ~ (exists emitted s',
           Tandem.finalBasal Vectors.noFinalizer s = (JS.Ok tt, s')
           /\ Tandem.events s' = Tandem.events s ++ [emitted]
           /\ Event.duration emitted = Some 0%float
           /\ In "basal/unknown-duration" (Event.annotations emitted)).
Proof.
  intros s. split; [reflexivity|]. split; [reflexivity|].
  intros [emitted [s' [H1 [H2 [_ H4]]]]].
  vm_compute in H1. inversion H1. subst s'. clear H1.
  vm_compute in H2. inversion H2. subst emitted.
  simpl in H4. exact H4.
Qed.

(** The segments of the test suite at the end of the stream. *)
Example finalBasal_suspended :
  map (fun e => (Event.duration e, Event.annotations e))
    (Tandem.events
       (Vectors.after [Tandem.Basal Vectors.suspendBasal; Tandem.FinalBasal]))
  = [(Some 0%float, ["basal/unknown-duration"])].
Proof. vm_compute. reflexivity. Qed.

Example finalBasal_temp :
  Tandem.events (Vectors.after [Tandem.Basal Vectors.temp; Tandem.FinalBasal])
  = [Vectors.temp].
Proof. vm_compute. reflexivity. Qed.

Example finalBasal_suspended_declared :
  Tandem.events
    (Vectors.after [Tandem.Basal Vectors.suspendBasal30; Tandem.FinalBasal])
  = [Vectors.suspendBasal30].
Proof. vm_compute. reflexivity. Qed.

(** ** The output *)

Section TandemOutput.

Variable Settings : Type.

Lemma keep_left_out (e : Event.t) : Tandem.keep e = negb (left_out e).
Proof.
  unfold Tandem.keep, left_out, zero_dose.
  destruct (String.eqb_spec (Event.type e) "bolus") as [B|B].
  - rewrite B. simpl.
    destruct (JS.strict_eq_zero (Event.normal e)
              && JS.not_ (Event.expectedNormal e)); reflexivity.
  - simpl. destruct (Event.type e =? "wizard")%string; simpl; [|reflexivity].
    destruct (Event.bolus e) as [b|]; [|reflexivity].
    destruct (JS.strict_eq_zero (Event.normal b)
              && JS.not_ (Event.expectedNormal b)); reflexivity.
Qed.

Lemma left_out_delete_index (e : Event.t) :
  left_out (Event.delete_index e) = left_out e.
Proof. reflexivity. Qed.

Lemma filter_map_delete_index (l : list Event.t) :
  filter (@Tandem.keep) (map Event.delete_index l)
  = map Event.delete_index (filter (fun e => negb (left_out e)) l).
Proof.
  induction l as [|e r IH]; simpl; [reflexivity|].
  rewrite keep_left_out, left_out_delete_index.
  destruct (left_out e); simpl; rewrite IH; reflexivity.
Qed.

(** C6, as the code has it. [getEvents] returns, in some order, exactly the
    events taken in so far that are not left out, each without its [index].
    Left out are the boluses whose [normal] is 0 and whose [expectedNormal]
    is absent or is itself 0 (or NaN), and the wizards whose bolus is such a
    one. So a zero bolus with an [expectedNormal] other than 0 is returned,
    with its [expectedNormal], and so is every event that is neither a bolus
    nor a wizard. *)
Theorem getEvents_leaves_out_zero_doses (s : Tandem.state Settings) :
  exists out s',
    Tandem.getEvents s = (JS.Ok out, s')
    /\ Permutation out
         (map Event.delete_index
            (filter (fun e => negb (left_out e)) (Tandem.events s)))
    /\ (forall e, left_out e = true
                  <-> (Event.type e = "bolus"
                       /\ JS.strict_eq_zero (Event.normal e) = true
                       /\ JS.not_ (Event.expectedNormal e) = true)
                      \/ (Event.type e = "wizard"
                          /\ exists b,
                              Event.bolus e = Some b
                              /\ JS.strict_eq_zero (Event.normal b) = true
                              /\ JS.not_ (Event.expectedNormal b) = true))
    /\ (forall e x,
           In e (Tandem.events s) ->
           Event.type e = "bolus" ->
           Event.expectedNormal e = Some x ->
           JS.not_ (Some x) = false ->
           In (Event.delete_index e) out
           /\ Event.expectedNormal (Event.delete_index e) = Some x).
Proof.
  rewrite getEvents_returns. do 2 eexists. split; [reflexivity|].
  assert (P : Permutation
                (lodash.sortBy String.leb Event.time
                   (filter (@Tandem.keep)
                      (map Event.delete_index (Tandem.events s))))
                (map Event.delete_index
                   (filter (fun e => negb (left_out e)) (Tandem.events s)))).
  { rewrite <- filter_map_delete_index. apply sortBy_perm. }
  split; [exact P|]. split.
  - intros e. unfold left_out, zero_dose. split.
    + intros H. apply orb_prop in H. destruct H as [H|H].
      * apply andb_prop in H. destruct H as [H1 H2].
        apply andb_prop in H2. left.
        split; [apply String.eqb_eq; exact H1 | exact H2].
      * apply andb_prop in H. destruct H as [H1 H2]. right.
        split; [apply String.eqb_eq; exact H1|].
        destruct (Event.bolus e) as [b|]; [|discriminate].
        exists b. split; [reflexivity|]. apply andb_prop in H2. exact H2.
    + intros [[H1 [H2 H3]]|[H1 [b [H2 [H3 H4]]]]].
      * rewrite H1, H2, H3. reflexivity.
      * rewrite H1, H2, H3, H4. reflexivity.
  - intros e x Hin Hty Hex Hx. split; [|exact Hex].
    apply (Permutation_in _ (Permutation_sym P)).
    apply in_map. apply filter_In. split; [exact Hin|].
    unfold left_out, zero_dose. rewrite Hty, Hex, Hx. simpl.
    rewrite andb_false_r. reflexivity.
Qed.

End TandemOutput.

(** C6 as it was stated fails: a bolus of volume 0 that carries an
    [expectedNormal], of 0, is taken in and is not in what [getEvents]
    returns. *)
Lemma zero_bolus_expected_zero_counterexample :
  let s := Vectors.after [Tandem.Bolus Vectors.normalBolus;
                          Tandem.Bolus Vectors.zeroBolusExpectedZero] in
  In Vectors.zeroBolusExpectedZero (Tandem.events s)
  /\ Event.expectedNormal Vectors.zeroBolusExpectedZero <> None
  /\ ~ (exists out s',
           Tandem.getEvents s = (JS.Ok out, s')
           /\ In (Event.delete_index Vectors.zeroBolusExpectedZero) out).
Proof.
  intros s. split; [right; left; reflexivity|]. split; [discriminate|].
  intros [out [s' [H1 H2]]].
  vm_compute in H1. inversion H1. subst out. clear H1.
  destruct H2 as [H|[]]. discriminate H.
Qed.

(** The zero boluses of the test suite. *)
Example zero_bolus_filtered :
  exists s',
    Tandem.getEvents
      (Vectors.after [Tandem.Bolus Vectors.normalBolus;
                      Tandem.Bolus Vectors.zeroBolus])
    = (JS.Ok [Vectors.normalBolus], s').
Proof. eexists. vm_compute. reflexivity. Qed.

(** ** Suspends and resumes *)

Lemma last_cons (A : Type) (r : list A) :
  forall b d : A, last (b :: r) d = last r b.
Proof.
  induction r as [|t r IH]; intros b d; [reflexivity|].
  change (last (b :: t :: r) d) with (last (t :: r) d).
  rewrite (IH t d), (IH t b). reflexivity.
Qed.

Lemma records_suspends (l : list Event.t) :
  records (map Tandem.Suspend l) = l.
Proof.
  induction l as [|e r IH]; [reflexivity|].
  unfold records in *. simpl. rewrite IH. reflexivity.
Qed.

Section TandemSuspend.

Variable Settings : Type.
Variable finalScheduledBasal : Event.t -> Settings -> string -> Event.t.

(** Records that pass through, in order: none throws, each is appended, the
    time on record is that of the last, and the rest of the state stays as
    it is. *)
Lemma passing_session (cs : list Tandem.call) :
  forall s : Tandem.state Settings,
    forallb passes_through cs = true ->
    in_order (Tandem.currTimestamp s) (map Event.time (records cs)) ->
    exists s',
      Tandem.session finalScheduledBasal cs s = (JS.Ok tt, s')
      /\ Tandem.events s' = Tandem.events s ++ records cs
      /\ Tandem.currBasal s' = Tandem.currBasal s
      /\ Tandem.cfg s' = Tandem.cfg s
      /\ Tandem.currTimestamp s'
         = last (map (fun e => Some (Event.time e)) (records cs))
             (Tandem.currTimestamp s).
Proof.
  induction cs as [|c r IH]; intros s Hp Ho.
  - exists s. simpl. rewrite app_nil_r. repeat split.
  - simpl in Hp. apply andb_prop in Hp. destruct Hp as [Hc Hp].
    assert (Hsim : exists e, Tandem.ingested c = Some e
                             /\ Tandem.perform finalScheduledBasal c
                                = Tandem.simpleSimulate e).
    { destruct c; try discriminate Hc; eexists; split; reflexivity. }
    destruct Hsim as [e [He Hsim]].
    assert (Hrec : records (c :: r) = e :: records r).
    { unfold records. simpl. rewrite He. reflexivity. }
    rewrite Hrec in *. simpl in Ho. destruct Ho as [Hg Ho].
    simpl. unfold JS.bind. rewrite Hsim.
    rewrite (simpleSimulate_passes _ _ _ Hg).
    destruct (IH (Tandem.set_events (Tandem.events s ++ [e])
                    (Tandem.set_currTimestamp (Some (Event.time e)) s))
                 Hp Ho) as [s' [H1 [H2 [H3 [H4 H5]]]]].
    exists s'. split; [exact H1|].
    split; [rewrite H2; simpl; rewrite <- app_assoc; reflexivity|].
    split; [exact H3|]. split; [exact H4|].
    rewrite H5. simpl Tandem.currTimestamp.
    symmetry. apply last_cons.
Qed.

(** C7, as the code has it. The Tandem simulator takes in a run of suspends
    (one or more), then a resume and then another resume, all in order:
    none of the calls throws, and what is emitted is the suspends, every one
    of them, and the two resumes, each exactly as it arrived - a resume
    carries the [previous] it came with and none that the simulator puts
    there. Nothing else of the state is touched but the time on record:
    there is no anchor kept for a suspend. *)
Theorem suspends_and_resumes_pass_through
  (s : Tandem.state Settings) (first : Event.t) (more : list Event.t)
  (r r2 : Event.t) :
  in_order (Tandem.currTimestamp s)
    (map Event.time (first :: more ++ [r; r2])) ->
  exists s',
    Tandem.session finalScheduledBasal
      (map Tandem.Suspend (first :: more)
       ++ [Tandem.Resume r; Tandem.Resume r2]) s
    = (JS.Ok tt, s')
    /\ Tandem.events s' = Tandem.events s ++ first :: more ++ [r; r2]
    /\ Tandem.currBasal s' = Tandem.currBasal s
    /\ Tandem.cfg s' = Tandem.cfg s
    /\ Tandem.currTimestamp s' = Some (Event.time r2).
Proof.
  intros Ho.
  set (cs := map Tandem.Suspend (first :: more)
             ++ [Tandem.Resume r; Tandem.Resume r2]).
  assert (Hrec : records cs = first :: more ++ [r; r2]).
  { unfold cs, records. rewrite flat_map_app.
    change (flat_map _ (map Tandem.Suspend (first :: more)))
      with (records (map Tandem.Suspend (first :: more))).
    rewrite records_suspends. reflexivity. }
  assert (Hp : forallb passes_through cs = true).
  { unfold cs. rewrite forallb_app. apply andb_true_intro. split.
    - rewrite forallb_forall. intros c Hc. apply in_map_iff in Hc.
      destruct Hc as [e [<- _]]. reflexivity.
    - reflexivity. }
  rewrite <- Hrec in Ho.
  destruct (passing_session cs s Hp Ho) as [s' [H1 [H2 [H3 [H4 H5]]]]].
  exists s'. split; [exact H1|]. rewrite Hrec in H2, H5.
  split; [exact H2|]. split; [exact H3|]. split; [exact H4|].
  rewrite H5.
  change (first :: more ++ [r; r2]) with ((first :: more) ++ [r] ++ [r2]).
  rewrite app_assoc, map_app. simpl map at 2. apply last_last.
Qed.

End TandemSuspend.

Lemma suspends_and_resumes_pass_through_witness :
  in_order (Tandem.currTimestamp Vectors.fresh)
    (map Event.time
       (Vectors.suspend1 :: [Vectors.suspend2]
        ++ [Vectors.resume1; Vectors.resume2]))
  /\ exists s',
       Tandem.session Vectors.noFinalizer
         (map Tandem.Suspend (Vectors.suspend1 :: [Vectors.suspend2])
          ++ [Tandem.Resume Vectors.resume1; Tandem.Resume Vectors.resume2])
         Vectors.fresh
       = (JS.Ok tt, s')
       /\ Tandem.events s'
          = Tandem.events Vectors.fresh
            ++ Vectors.suspend1 :: [Vectors.suspend2]
            ++ [Vectors.resume1; Vectors.resume2]
       /\ Tandem.currBasal s' = Tandem.currBasal Vectors.fresh
       /\ Tandem.cfg s' = Tandem.cfg Vectors.fresh
       /\ Tandem.currTimestamp s' = Some (Event.time Vectors.resume2).
Proof.
  assert (O : in_order (Tandem.currTimestamp Vectors.fresh)
                (map Event.time
                   (Vectors.suspend1 :: [Vectors.suspend2]
                    ++ [Vectors.resume1; Vectors.resume2])))
    by (vm_compute; repeat split).
  split; [exact O|].
  exact (suspends_and_resumes_pass_through unit Vectors.noFinalizer
           Vectors.fresh Vectors.suspend1 [Vectors.suspend2]
           Vectors.resume1 Vectors.resume2 O).
Defined.

(** C7 as it was stated fails on the simulator: two suspends and then a
    resume are taken in. All three are emitted, and the resume comes out
    with no [previous]: nothing that [getEvents] returns carries the first
    suspend as its [previous]. *)
Lemma resume_after_suspends_counterexample :
  let cs := [Tandem.Suspend Vectors.suspend1;
             Tandem.Suspend Vectors.suspend2;
             Tandem.Resume Vectors.resume1] in
  let s := Vectors.after cs in
  Tandem.session Vectors.noFinalizer cs Vectors.fresh = (JS.Ok tt, s)
  /\ Tandem.events s
     = [Vectors.suspend1; Vectors.suspend2; Vectors.resume1]
  /\ ~ (exists out s' e,
           Tandem.getEvents s = (JS.Ok out, s')
           /\ In e out
           /\ Event.previous e = Some Vectors.suspend1).
Proof.
  intros cs s. split; [reflexivity|]. split; [reflexivity|].
  intros [out [s' [e [H1 [H2 H3]]]]].
  vm_compute in H1. inversion H1. subst out. clear H1.
  destruct H2 as [<-|[<-|[<-|[]]]]; discriminate H3.
Qed.

(** The suspend and the resume of the test suite, on this simulator. *)
Example resume_after_suspend :
  exists s',
    Tandem.getEvents
      (Vectors.after [Tandem.Suspend Vectors.suspend1;
                      Tandem.Resume Vectors.resume1])
    = (JS.Ok [Vectors.suspend1; Vectors.resume1], s').
Proof. eexists. vm_compute. reflexivity. Qed.

(** ** Termination notices *)

Ltac run_matcher :=
  unfold Reconciler.ingestBolus, Reconciler.ingestTermination,
    Reconciler.register, Reconciler.enforceOrder, Reconciler.emit in *;
  run_monad.

(** The simple doses of the test suite: an immediate dose of 1.3 with 2.7
    missed, one of 0 with 2.7 missed, and an extended dose of 1.4 over half
    an hour with 1.4 missed and half an hour left. *)
Example normal_dose_terminated :
  map Event.expectedNormal
    (Reconciler.events
       (snd ((Reconciler.ingestBolus Vectors.normalBolus
              ;;; Reconciler.ingestTermination Vectors.term1)
               Reconciler.init)))
  = [Some 4.0%float].
Proof. vm_compute. reflexivity. Qed.

Example zero_dose_terminated :
  exists s,
    (Reconciler.ingestBolus Vectors.zeroBolus
     ;;; Reconciler.ingestTermination
           (Reconciler.Termination "2014-09-25T01:05:05.000Z"
              2.7%float 0%float)
     ;;; Reconciler.drainOutput) Reconciler.init
    = (JS.Ok [Reconciler.set_expectedNormal 2.7%float Vectors.zeroBolus], s).
Proof. eexists. vm_compute. reflexivity. Qed.

Example square_dose_terminated :
  map (fun e => (Event.expectedExtended e, Event.expectedDuration e))
    (Reconciler.events
       (snd ((Reconciler.ingestBolus Vectors.squareBolus
              ;;; Reconciler.ingestTermination
                    (Reconciler.Termination "2014-09-25T01:30:00.000Z"
                       1.4%float 1800000%float))
               Reconciler.init)))
  = [(Some 2.8%float, Some 3600000%float)].
Proof. vm_compute. reflexivity. Qed.

(** C8. A combined dose - a bolus that declares an immediate volume [n], an
    extended volume [x] and a duration [d] - taken in by a new reconciler
    and followed by two termination notices in order. Both notices are taken
    in. The first is applied to the immediate phase: the dose then carries
    expectedNormal = n + the first notice's missed volume, its
    expectedExtended and expectedDuration are as they were declared, and
    only the extended phase is outstanding. The second is applied to the
    extended phase: no phase is outstanding, and the one bolus that comes
    out carries the same expectedNormal, expectedExtended = x + the second
    notice's missed volume and expectedDuration = d + the second notice's
    remaining duration, all that the dose declares being unchanged. On the
    dose of the test suite (1.3, 1.4, duration 0; missed 2.7 with 0
    remaining, then missed 1.4 with 3600000 remaining) these are 4.0, 2.8
    and 3600000. *)
Theorem combined_dose_two_terminations
  (dose : Event.t) (t1 t2 : Reconciler.termination) (n x d : JS.number) :
  Event.type dose = "bolus" ->
  Event.normal dose = Some n ->
  Event.extended dose = Some x ->
  Event.duration dose = Some d ->
  in_order None
    [Event.time dose; Reconciler.term_time t1; Reconciler.term_time t2] ->
  exists s1 s2 out1 out2,
    (Reconciler.ingestBolus dose
     ;;; Reconciler.ingestTermination t1) Reconciler.init = (JS.Ok tt, s1)
    /\ Reconciler.ingestTermination t2 s1 = (JS.Ok tt, s2)
    /\ Reconciler.events s1 = [out1]
    /\ Reconciler.outstanding s1 = [Reconciler.Extended]
    /\ Event.expectedNormal out1
       = Some (n + Reconciler.missedInsulin t1)%float
    /\ Event.expectedExtended out1 = Event.expectedExtended dose
    /\ Event.expectedDuration out1 = Event.expectedDuration dose
    /\ Reconciler.outstanding s2 = []
    /\ Reconciler.drainOutput s2 = (JS.Ok [out2], s2)
    /\ Event.expectedNormal out2
       = Some (n + Reconciler.missedInsulin t1)%float
    /\ Event.expectedExtended out2
       = Some (x + Reconciler.missedInsulin t2)%float
    /\ Event.expectedDuration out2
       = Some (d + Reconciler.durationLeft t2)%float
    /\ declared out2 = declared dose.
Proof.
  intros Hty Hn Hx Hd [_ [H1 [H2 _]]].
  run_matcher. unfold Reconciler.phases. rewrite Hn, Hx. simpl.
  rewrite H1. simpl.
  unfold Reconciler.amend_record. rewrite Hty. simpl.
  do 4 eexists.
  split; [reflexivity|]. simpl. rewrite H2. simpl. rewrite Hty. simpl.
  split; [reflexivity|].
  split; [reflexivity|].
  split; [reflexivity|]. simpl.
  split; [rewrite Hn; reflexivity|].
  split; [reflexivity|].
  split; [reflexivity|].
  split; [reflexivity|].
  unfold Reconciler.drainOutput. run_monad.
  unfold Reconciler.retained, Reconciler.zero_effect. simpl.
  rewrite Hty. simpl. rewrite Bool.andb_false_r. simpl.
  split; [reflexivity|]. simpl.
  rewrite Hn, Hx, Hd.
  repeat split.
Qed.

Lemma combined_dose_two_terminations_witness :
  in_order None
    [Event.time Vectors.dualBolus; Reconciler.term_time Vectors.term1;
     Reconciler.term_time Vectors.term2]
  /\ exists s out,
       (Reconciler.ingestBolus Vectors.dualBolus
        ;;; Reconciler.ingestTermination Vectors.term1
        ;;; Reconciler.ingestTermination Vectors.term2
        ;;; Reconciler.drainOutput) Reconciler.init = (JS.Ok [out], s)
       /\ Event.expectedNormal out = Some 4.0%float
       /\ Event.expectedExtended out = Some 2.8%float
       /\ Event.expectedDuration out = Some 3600000%float
       /\ declared out = declared Vectors.dualBolus.
Proof.
  assert (O : in_order None
                [Event.time Vectors.dualBolus;
                 Reconciler.term_time Vectors.term1;
                 Reconciler.term_time Vectors.term2])
    by (vm_compute; repeat split).
  split; [exact O|].
  destruct (combined_dose_two_terminations Vectors.dualBolus Vectors.term1
              Vectors.term2 1.3%float 1.4%float 0%float
              eq_refl eq_refl eq_refl eq_refl O)
    as [s1 [s2 [out1 [out2 [R1 [R2 [_ [_ [_ [_ [_ [_ [D [N [X [T K]]]]]]]]]]]]]]]].
  exists s2, out2.
  split.
  - unfold JS.bind in *.
    destruct (Reconciler.ingestBolus Vectors.dualBolus Reconciler.init)
      as [[[]|] s0]; try discriminate R1.
    rewrite R1, R2. exact D.
  - rewrite N, X, T. repeat split. exact K.
Defined.

(** ** The clock changes *)

Lemma round_to_nearest (q x : Z) :
  0 < q -> nearest_multiple q x (round_to q x).
Proof.
  intros Hq. unfold nearest_multiple, round_to. split.
  - exists ((2 * x + q) / (2 * q)). reflexivity.
  - assert (D : 2 * x + q
                = 2 * q * ((2 * x + q) / (2 * q)) + (2 * x + q) mod (2 * q))
      by (apply Z.div_mod; lia).
    assert (B : 0 <= (2 * x + q) mod (2 * q) < 2 * q)
      by (apply Z.mod_pos_bound; lia).
    lia.
Qed.

Lemma adjustCurrentOffset_spec
  (event : TimezoneOffsetUtil.timeChange) (currentOffset d : Z) :
  sundial.dateDifference (TimezoneOffsetUtil.change_from event)
    (TimezoneOffsetUtil.change_to event) = Some d ->
  TimezoneOffsetUtil.adjustCurrentOffset event currentOffset
  = if Z.abs (round_to 15 d) <=? TimezoneOffsetUtil.MAX_DIFF
    then currentOffset + round_to 60 d
    else currentOffset.
Proof.
  intros H.
  unfold TimezoneOffsetUtil.adjustCurrentOffset,
    TimezoneOffsetUtil.findOffsetDifference.
  rewrite H. reflexivity.
Qed.

(** The guard is as the claim has it: a difference that, rounded to the
    quarter of an hour, is beyond 1560 minutes leaves the offset alone. *)
Lemma adjustCurrentOffset_beyond_max
  (event : TimezoneOffsetUtil.timeChange) (currentOffset d : Z) :
  sundial.dateDifference (TimezoneOffsetUtil.change_from event)
    (TimezoneOffsetUtil.change_to event) = Some d ->
  1560 < Z.abs (round_to 15 d) ->
  TimezoneOffsetUtil.adjustCurrentOffset event currentOffset = currentOffset.
Proof.
  intros H Hbig. rewrite (adjustCurrentOffset_spec _ _ _ H).
  unfold TimezoneOffsetUtil.MAX_DIFF.
  destruct (Z.leb_spec (Z.abs (round_to 15 d)) 1560); [lia | reflexivity].
Qed.

(** The adjustment, when made, is the difference rounded to the hour. *)
Lemma adjustCurrentOffset_within_max
  (event : TimezoneOffsetUtil.timeChange) (currentOffset d : Z) :
  sundial.dateDifference (TimezoneOffsetUtil.change_from event)
    (TimezoneOffsetUtil.change_to event) = Some d ->
  Z.abs (round_to 15 d) <= 1560 ->
  nearest_multiple 60 d
    (TimezoneOffsetUtil.adjustCurrentOffset event currentOffset
     - currentOffset).
Proof.
  intros H Hsmall. rewrite (adjustCurrentOffset_spec _ _ _ H).
  unfold TimezoneOffsetUtil.MAX_DIFF.
  destruct (Z.leb_spec (Z.abs (round_to 15 d)) 1560); [|lia].
  replace (currentOffset + round_to 60 d - currentOffset)
    with (round_to 60 d) by lia.
  apply round_to_nearest. lia.
Qed.

(** C9. A clock set back from 01:45 to 01:00: the difference is 45
    minutes, which is its own nearest quarter of an hour and well within
    1560, and [adjustCurrentOffset] moves the offset by 60, the nearest
    hour, not by 45. *)
Theorem adjustCurrentOffset_rounds_to_the_hour :
  sundial.dateDifference "2014-09-25T01:45:00" "2014-09-25T01:00:00"
  = Some 45
  /\ TimezoneOffsetUtil.findOffsetDifference Vectors.quarterChange = Some 45
  /\ TimezoneOffsetUtil.adjustCurrentOffset Vectors.quarterChange 0 = 60
  /\ TimezoneOffsetUtil.adjustCurrentOffset Vectors.quarterChange 0
     <> 0 + 45.
Proof.
  repeat split; try (vm_compute; reflexivity).
  vm_compute. discriminate.
Qed.

(** ** Lookup by sequence index *)

Lemma StronglySorted_snoc (A : Type) (R : A -> A -> Prop)
  (l : list A) (a : A) :
  StronglySorted R l -> Forall (fun x => R x a) l ->
  StronglySorted R (l ++ [a]).
Proof.
  induction l as [|x r IH]; simpl; intros Hs Hf.
  - constructor; constructor.
  - apply StronglySorted_inv in Hs. destruct Hs as [Hr Hx].
    apply Forall_inv_tail in Hf as Ht. apply Forall_inv in Hf.
    constructor.
    + apply IH; assumption.
    + apply Forall_app. split; [exact Hx|]. constructor; [exact Hf|constructor].
Qed.

Lemma StronglySorted_rev (A : Type) (R : A -> A -> Prop) (l : list A) :
  StronglySorted R l -> StronglySorted (fun a b => R b a) (rev l).
Proof.
  induction l as [|x r IH]; simpl; intros Hs.
  - constructor.
  - apply StronglySorted_inv in Hs. destruct Hs as [Hr Hx].
    apply StronglySorted_snoc; [apply IH; exact Hr|].
    apply Forall_rev. exact Hx.
Qed.

Lemma StronglySorted_weaken (A : Type) (R R' : A -> A -> Prop) (l : list A) :
  (forall a b, R a b -> R' a b) ->
  StronglySorted R l -> StronglySorted R' l.
Proof.
  intros Himp. induction 1 as [|a l Hs IH Hf]; constructor.
  - exact IH.
  - apply Forall_forall. intros b Hb. apply Himp.
    rewrite Forall_forall in Hf. exact (Hf b Hb).
Qed.

Lemma sorted_changes_descending
  (changes : list TimezoneOffsetUtil.timeChange) :
  StronglySorted descending (TimezoneOffsetUtil.sorted_changes changes).
Proof.
  unfold TimezoneOffsetUtil.sorted_changes.
  apply (StronglySorted_weaken _
           (fun a b => ascending Z.leb TimezoneOffsetUtil.index b a)).
  - intros a b H. apply Z.leb_le. exact H.
  - apply StronglySorted_rev. apply sortBy_sorted.
    + intros x y. destruct (Z.leb_spec x y); [left; reflexivity|].
      right. apply Z.leb_le. lia.
    + intros x y z H1 H2. apply Z.leb_le in H1, H2. apply Z.leb_le. lia.
Qed.

Lemma sorted_changes_perm (changes : list TimezoneOffsetUtil.timeChange) :
  Permutation (TimezoneOffsetUtil.sorted_changes changes) changes.
Proof.
  unfold TimezoneOffsetUtil.sorted_changes.
  apply perm_trans with (lodash.sortBy Z.leb TimezoneOffsetUtil.index changes).
  - apply Permutation_sym. apply Permutation_rev.
  - apply sortBy_perm.
Qed.

Section ResolverLookup.

Variable checkTimezoneName : string -> bool.
Variable applyTimezone : Z -> string -> Z.
Variable getOffsetFromZone : string -> string -> Z.

Variable L : list Z.

Lemma scan_misses (ivs : list TimezoneOffsetUtil.interval)
  (datetime x : Z) :
  Forall (misses L) ivs -> In x L ->
  TimezoneOffsetUtil.scan ivs datetime (Some x) = None.
Proof.
  intros Hm Hx. induction ivs as [|iv r IH]; [reflexivity|].
  cbn [TimezoneOffsetUtil.scan].
  apply Forall_inv_tail in Hm as Ht. apply Forall_inv in Hm.
  unfold misses in Hm. rewrite Hm; [|exact Hx]. apply IH. exact Ht.
Qed.

(** What holds each time round the loop over the changes still to come:
    no interval pushed so far is hit by an index of [L], and an index of
    [L] is either no less than [currentIndex] or the index of a change
    still to come. *)
Lemma next_change_misses (rest : list TimezoneOffsetUtil.timeChange) :
  forall st : TimezoneOffsetUtil.loop,
    Forall (misses L) (TimezoneOffsetUtil.offsetIntervals st) ->
    StronglySorted descending rest ->
    Forall (fun c => TimezoneOffsetUtil.index c
                     <= TimezoneOffsetUtil.currentIndex st) rest ->
    (forall x, In x L ->
               TimezoneOffsetUtil.currentIndex st <= x
               \/ In x (indices rest)) ->
    let st' := fold_left TimezoneOffsetUtil.next_change rest st in
    Forall (misses L) (TimezoneOffsetUtil.offsetIntervals st')
    /\ (forall x, In x L -> TimezoneOffsetUtil.currentIndex st' <= x).
Proof.
  induction rest as [|c r IH]; intros st Hm Hs Hle Hd; simpl.
  - split; [exact Hm|]. intros x Hx.
    destruct (Hd x Hx) as [H|[]]. exact H.
  - apply StronglySorted_inv in Hs. destruct Hs as [Hr Hc].
    apply Forall_inv_tail in Hle as Hle'. apply Forall_inv in Hle.
    apply IH; simpl.
    + apply Forall_app. split; [exact Hm|].
      constructor; [|constructor].
      intros x utc Hx. simpl.
      destruct (Hd x Hx) as [H|[H|H]].
      * replace (x <? TimezoneOffsetUtil.currentIndex st) with false;
          [reflexivity|]. symmetry. apply Z.ltb_ge. exact H.
      * rewrite <- H. rewrite Z.gtb_ltb, Z.ltb_irrefl. apply andb_false_r.
      * unfold indices in H. apply in_map_iff in H.
        destruct H as [c' [<- Hc']].
        rewrite Forall_forall in Hc. specialize (Hc c' Hc').
        unfold descending in Hc.
        rewrite Z.gtb_ltb.
        replace (TimezoneOffsetUtil.index c <? TimezoneOffsetUtil.index c')
          with false; [apply andb_false_r|].
        symmetry. apply Z.ltb_ge. exact Hc.
    + exact Hr.
    + exact Hc.
    + intros x Hx. destruct (Hd x Hx) as [H|[H|H]].
      * left. lia.
      * left. lia.
      * right. exact H.
Qed.

Lemma process_misses (timezone mostRecent : string)
  (changes : list TimezoneOffsetUtil.timeChange) :
  L = indices changes ->
  Forall (misses L)
    (fst (TimezoneOffsetUtil.process applyTimezone getOffsetFromZone
            timezone mostRecent changes)).
Proof.
  intros HL. unfold TimezoneOffsetUtil.process.
  pose proof (sorted_changes_descending changes) as Hs.
  pose proof (sorted_changes_perm changes) as Hp.
  destruct (TimezoneOffsetUtil.sorted_changes changes) as [|c0 rest];
    simpl; [constructor|].
  apply StronglySorted_inv in Hs. destruct Hs as [Hr Hc].
  assert (Hall : forall x, In x L ->
                           x = TimezoneOffsetUtil.index c0
                           \/ In x (indices rest)).
  { intros x Hx. rewrite HL in Hx. unfold indices in Hx.
    apply in_map_iff in Hx. destruct Hx as [c [<- Hc']].
    apply (Permutation_in _ (Permutation_sym Hp)) in Hc'.
    destruct Hc' as [->|Hc']; [left; reflexivity|].
    right. unfold indices. apply in_map. exact Hc'. }
  assert (Hmax : forall x, In x L -> x <= TimezoneOffsetUtil.index c0).
  { intros x Hx. destruct (Hall x Hx) as [->|H]; [lia|].
    unfold indices in H. apply in_map_iff in H.
    destruct H as [c [<- Hc']].
    rewrite Forall_forall in Hc. exact (Hc c Hc'). }
  destruct (next_change_misses rest
              (TimezoneOffsetUtil.first_change applyTimezone
                 getOffsetFromZone timezone mostRecent c0))
    as [H1 H2]; simpl.
  - constructor; [|constructor]. intros x utc Hx. simpl.
    rewrite Z.gtb_ltb. apply Z.ltb_ge. apply Hmax. exact Hx.
  - exact Hr.
  - exact Hc.
  - intros x Hx. destruct (Hall x Hx) as [->|H]; [left; lia | right; exact H].
  - apply Forall_app. split; [exact H1|].
    constructor; [|constructor]. intros x utc Hx. simpl.
    apply Z.ltb_ge. apply H2. exact Hx.
Qed.

Lemma process_nonempty (timezone mostRecent : string)
  (changes : list TimezoneOffsetUtil.timeChange)
  (c : TimezoneOffsetUtil.timeChange) :
  In c changes ->
  fst (TimezoneOffsetUtil.process applyTimezone getOffsetFromZone
         timezone mostRecent changes) <> [].
Proof.
  intros Hc. unfold TimezoneOffsetUtil.process.
  pose proof (sorted_changes_perm changes) as Hp.
  destruct (TimezoneOffsetUtil.sorted_changes changes) as [|c0 rest].
  - apply Permutation_nil in Hp. subst changes. destruct Hc.
  - simpl. intros H. apply app_eq_nil in H. destruct H as [_ H].
    discriminate H.
Qed.

End ResolverLookup.

(** C10. When the resolver was built from clock changes, a lookup with the
    sequence index of one of those changes matches no interval, whatever the
    date: the bounds of every interval are exclusive and are the indices of
    the changes themselves. [lookup] returns nothing ([undefined]), not a
    time and offset. *)
Theorem lookup_at_change_index_is_undefined
  (checkTimezoneName : string -> bool)
  (applyTimezone : Z -> string -> Z)
  (getOffsetFromZone : string -> string -> Z)
  (timezone mostRecent : string)
  (changes : list TimezoneOffsetUtil.timeChange)
  (self : TimezoneOffsetUtil.t)
  (c : TimezoneOffsetUtil.timeChange) (datetime : Z) :
  TimezoneOffsetUtil.create checkTimezoneName applyTimezone getOffsetFromZone
    timezone mostRecent changes = JS.Ok self ->
  In c changes ->
  TimezoneOffsetUtil.lookup applyTimezone getOffsetFromZone self datetime
    (Some (TimezoneOffsetUtil.index c))
  = None.
Proof.
  intros Hmk Hc. unfold TimezoneOffsetUtil.create in Hmk.
  destruct (negb (checkTimezoneName timezone)); [discriminate|].
  destruct (is_nan (Date.parse mostRecent)); [discriminate|].
  destruct (negb (forallb TimezoneOffsetUtil.is_timeChange changes));
    [discriminate|].
  pose proof (process_misses applyTimezone getOffsetFromZone
                (indices changes) timezone mostRecent changes eq_refl) as Hm.
  pose proof (process_nonempty applyTimezone getOffsetFromZone
                timezone mostRecent changes c Hc) as Hne.
  destruct (TimezoneOffsetUtil.process applyTimezone getOffsetFromZone
              timezone mostRecent changes) as [ivs recs].
  inversion Hmk. subst self. clear Hmk.
  unfold TimezoneOffsetUtil.lookup. simpl in *.
  assert (Hx : In (TimezoneOffsetUtil.index c) (indices changes))
    by (unfold indices; apply in_map; exact Hc).
  destruct ivs as [|iv r]; [contradiction|].
  apply (scan_misses (indices changes)); assumption.
Qed.

Lemma lookup_at_change_index_is_undefined_witness :
  exists self,
    TimezoneOffsetUtil.create Vectors.anyName Vectors.utcDate
      Vectors.utcOffset "UTC" "2014-09-26T00:00:00.000Z"
      [Vectors.hourChange; Vectors.quarterChange] = JS.Ok self
    /\ TimezoneOffsetUtil.lookup Vectors.utcDate Vectors.utcOffset self
         1411609500000 (Some 10)
       = None.
Proof.
  eexists. split; [reflexivity|].
  apply (lookup_at_change_index_is_undefined Vectors.anyName Vectors.utcDate
           Vectors.utcOffset "UTC" "2014-09-26T00:00:00.000Z"
           [Vectors.hourChange; Vectors.quarterChange] _
           Vectors.quarterChange 1411609500000).
  - reflexivity.
  - right. left. reflexivity.
Defined.

(** The intervals of that resolver, by their index bounds and offsets, and
    lookups between, at and beyond the indices of the two changes. *)
Example two_changes :
  exists self,
    TimezoneOffsetUtil.create Vectors.anyName Vectors.utcDate
      Vectors.utcOffset "UTC" "2014-09-26T00:00:00.000Z"
      [Vectors.hourChange; Vectors.quarterChange] = JS.Ok self
    /\ map (fun iv => (TimezoneOffsetUtil.startIndex iv,
                       TimezoneOffsetUtil.endIndex iv,
                       TimezoneOffsetUtil.offset iv))
         (TimezoneOffsetUtil.intervals self)
       = [(None, Some 10, 0); (Some 10, Some 5, 60); (Some 5, None, 0)]
    /\ TimezoneOffsetUtil.lookup Vectors.utcDate Vectors.utcOffset self
         1411609500000 (Some 7)
       = Some {| TimezoneOffsetUtil.info_time := "2014-09-25T00:45:00.000Z";
                 TimezoneOffsetUtil.info_timezoneOffset := 60 |}
    /\ TimezoneOffsetUtil.lookup Vectors.utcDate Vectors.utcOffset self
         1411609500000 (Some 5)
       = None
    /\ TimezoneOffsetUtil.lookup Vectors.utcDate Vectors.utcOffset self
         1411609500000 (Some 11)
       = Some {| TimezoneOffsetUtil.info_time := "2014-09-25T01:45:00.000Z";
                 TimezoneOffsetUtil.info_timezoneOffset := 0 |}.
Proof.
  eexists. split; [reflexivity|]. vm_compute. repeat split.
Qed.

(** ** Dates *)

Example Date_parse_epoch : Date.parse "1970-01-01T00:00:00.000Z" = 0%float.
Proof. reflexivity. Qed.

Example Date_parse_2014 :
  Date.parse "2014-09-25T02:00:00.000Z" = 1411610400000%float.
Proof. vm_compute. reflexivity. Qed.

Example Date_parse_junk : is_nan (Date.parse "yesterday") = true.
Proof. reflexivity. Qed.

(** On timestamps as [toISOString] prints them the order of code units, by
    which [ensureTimestamp] compares, goes with the order of time. *)
Example code_units_and_time :
  String.ltb "2014-09-25T02:00:00.000Z" "2014-09-25T03:00:00.000Z" = true
  /\ (Date.parse "2014-09-25T02:00:00.000Z"
      <? Date.parse "2014-09-25T03:00:00.000Z")%float = true.
Proof. split; vm_compute; reflexivity. Qed.

Example toISOString_2014 :
  Date.toISOString 1411610400000 = "2014-09-25T02:00:00.000Z".
Proof. vm_compute. reflexivity. Qed.

(** * Further properties of the sources *)

(** ** The order of code units *)

Lemma string_compare_trans (a : string) :
  forall b c : string,
    String.compare a b <> Gt -> String.compare b c <> Gt ->
    String.compare a c <> Gt.
Proof.
  induction a as [|x a IH]; intros [|y b] [|z c]; simpl;
    try congruence.
  unfold Ascii.compare.
  destruct (N.compare_spec (N_of_ascii x) (N_of_ascii y)) as [E1|L1|G1];
    destruct (N.compare_spec (N_of_ascii y) (N_of_ascii z)) as [E2|L2|G2];
    destruct (N.compare_spec (N_of_ascii x) (N_of_ascii z)) as [E3|L3|G3];
    try congruence; try lia.
  apply IH.
Qed.

Lemma string_leb_trans (a b c : string) :
  String.leb a b = true -> String.leb b c = true -> String.leb a c = true.
Proof.
  unfold String.leb. intros H1 H2.
  pose proof (string_compare_trans a b c) as T.
  destruct (String.compare a b); destruct (String.compare b c);
    destruct (String.compare a c); try reflexivity; try discriminate;
    exfalso; apply T; congruence.
Qed.

(** What [ensureTimestamp] lets through is no earlier than the time on
    record. *)
Lemma not_gt_leb (l t : string) :
  JS.gt (Some l) t = false -> String.leb l t = true.
Proof.
  unfold JS.gt, String.ltb, String.leb.
  rewrite (String.compare_antisym l t).
  destruct (String.compare t l); simpl; congruence.
Qed.

Lemma ltb_not_gt (l t : string) :
  String.ltb l t = true -> JS.gt (Some l) t = false /\ l <> t.
Proof.
  unfold JS.gt, String.ltb. intros H. split.
  - rewrite (String.compare_antisym t l).
    destruct (String.compare l t); simpl; congruence.
  - intros ->.
    assert (E : String.compare t t = Eq).
    { pose proof (String.compare_antisym t t) as A.
      destruct (String.compare t t); simpl in A; congruence. }
    rewrite E in H. discriminate H.
Qed.

(** ** What [getEvents] hands over *)

Lemma sortBy_of_sorted (A K : Type) (leb : K -> K -> bool) (key : A -> K)
  (l : list A) :
  StronglySorted (ascending leb key) l -> lodash.sortBy leb key l = l.
Proof.
  induction 1 as [|a l Hs IH Hf]; simpl; [reflexivity|].
  rewrite IH. destruct l as [|x r]; [reflexivity|].
  simpl. apply Forall_inv in Hf. unfold ascending in Hf.
  rewrite Hf. reflexivity.
Qed.

Lemma StronglySorted_filter (A : Type) (R : A -> A -> Prop)
  (f : A -> bool) (l : list A) :
  StronglySorted R l -> StronglySorted R (filter f l).
Proof.
  induction 1 as [|a l Hs IH Hf]; simpl; [constructor|].
  destruct (f a); [|exact IH].
  constructor; [exact IH|].
  apply Forall_forall. intros x Hx. apply filter_In in Hx.
  rewrite Forall_forall in Hf. apply Hf. apply Hx.
Qed.

Lemma StronglySorted_map_delete_index (l : list Event.t) :
  StronglySorted no_later l ->
  StronglySorted no_later (map Event.delete_index l).
Proof.
  induction 1 as [|a l Hs IH Hf]; simpl; constructor; [exact IH|].
  apply Forall_forall. intros x Hx. apply in_map_iff in Hx.
  destruct Hx as [y [<- Hy]]. rewrite Forall_forall in Hf.
  exact (Hf y Hy).
Qed.

Lemma map_delete_index_twice (l : list Event.t) :
  map Event.delete_index (map Event.delete_index l)
  = map Event.delete_index l.
Proof. rewrite map_map. reflexivity. Qed.

Section TandemHandOver.

Variable Settings : Type.

(** X1. Whatever has been taken in, in whatever order segments were closed:
    the list [getEvents] returns is sorted by time, each event stamped no
    later, by code units, than all the events after it. *)
Theorem getEvents_sorted_by_time (s : Tandem.state Settings) :
  exists out s',
    Tandem.getEvents s = (JS.Ok out, s')
    /\ StronglySorted no_later out.
Proof.
  rewrite getEvents_returns. do 2 eexists. split; [reflexivity|].
  apply (sortBy_sorted Event.t string String.leb Event.time).
  - apply String.leb_total.
  - apply string_leb_trans.
Qed.

(** X2. [getEvents] strips the [index] of every event, of those it returns
    and of those it leaves in the array, and can be called again: a second
    call returns the same list and changes nothing more. *)
Theorem getEvents_twice (s : Tandem.state Settings) :
  exists out s',
    Tandem.getEvents s = (JS.Ok out, s')
    /\ Forall (fun e => Event.index e = None) out
    /\ Forall (fun e => Event.index e = None) (Tandem.events s')
    /\ Tandem.getEvents s' = (JS.Ok out, s').
Proof.
  rewrite getEvents_returns. do 2 eexists. split; [reflexivity|].
  assert (D : Forall (fun e => Event.index e = None)
                (map Event.delete_index (Tandem.events s))).
  { apply Forall_forall. intros x Hx. apply in_map_iff in Hx.
    destruct Hx as [y [<- _]]. reflexivity. }
  split; [|split; [exact D|]].
  - apply sortBy_Forall. apply Forall_forall. intros x Hx.
    apply filter_In in Hx. rewrite Forall_forall in D. apply D. apply Hx.
  - rewrite getEvents_returns. simpl.
    rewrite map_delete_index_twice. reflexivity.
Qed.

Lemma in_order_sorted (ts : list Event.t) :
  forall last : option string,
    in_order last (map Event.time ts) ->
    StronglySorted no_later ts
    /\ (forall l, last = Some l ->
                  Forall (fun e => String.leb l (Event.time e) = true) ts).
Proof.
  induction ts as [|e r IH]; intros last H; simpl in *.
  - split; [constructor|]. intros l _. constructor.
  - destruct H as [Hg Hr]. destruct (IH _ Hr) as [Hs Hf].
    specialize (Hf _ eq_refl). split.
    + constructor; [exact Hs | exact Hf].
    + intros l ->. apply not_gt_leb in Hg. constructor; [exact Hg|].
      apply Forall_forall. intros x Hx. rewrite Forall_forall in Hf.
      apply string_leb_trans with (Event.time e); [exact Hg | exact (Hf x Hx)].
Qed.

Variable finalScheduledBasal : Event.t -> Settings -> string -> Event.t.

(** X3. Records that pass through (anything but delivery segments) and
    arrive in order on a new simulator: no call throws, and [getEvents]
    returns the records in the order they arrived, each without its
    [index], less the zero doses it leaves out. The sort moves nothing. *)
Theorem pass_through_keeps_arrival_order
  (c : option (Tandem.config Settings)) (cs : list Tandem.call) :
  forallb passes_through cs = true ->
  in_order None (map Event.time (records cs)) ->
  exists s s',
    Tandem.session finalScheduledBasal cs (Tandem.make c) = (JS.Ok tt, s)
    /\ Tandem.events s = records cs
    /\ Tandem.getEvents s
       = (JS.Ok (map Event.delete_index
                   (filter (fun e => negb (left_out e)) (records cs))),
          s').
Proof.
  intros Hp Ho.
  destruct (passing_session Settings finalScheduledBasal cs (Tandem.make c)
              Hp Ho) as [s [H1 [H2 _]]].
  simpl in H2. exists s. eexists. split; [exact H1|]. split; [exact H2|].
  rewrite getEvents_returns, H2, filter_map_delete_index.
  rewrite sortBy_of_sorted; [reflexivity|].
  apply StronglySorted_map_delete_index. apply StronglySorted_filter.
  apply (in_order_sorted (records cs) None Ho).
Qed.

End TandemHandOver.

Lemma pass_through_keeps_arrival_order_witness :
  exists s s',
    Tandem.session Vectors.noFinalizer
      [Tandem.Bolus Vectors.normalBolus; Tandem.Bolus Vectors.zeroBolus;
       Tandem.Resume Vectors.resume1] (Tandem.make None)
    = (JS.Ok tt, s)
    /\ Tandem.events s
       = [Vectors.normalBolus; Vectors.zeroBolus; Vectors.resume1]
    /\ Tandem.getEvents s
       = (JS.Ok [Vectors.normalBolus; Vectors.resume1], s').
Proof.
  apply (pass_through_keeps_arrival_order unit Vectors.noFinalizer None
           [Tandem.Bolus Vectors.normalBolus; Tandem.Bolus Vectors.zeroBolus;
            Tandem.Resume Vectors.resume1]).
  - reflexivity.
  - simpl. repeat split.
Defined.

(** ** The events array only grows *)

Section TandemAppends.

Variable Settings : Type.
Variable finalScheduledBasal : Event.t -> Settings -> string -> Event.t.

Lemma perform_appends (c : Tandem.call) (s : Tandem.state Settings) :
  exists l,
    Tandem.events (snd (Tandem.perform finalScheduledBasal c s))
    = Tandem.events s ++ l
    /\ (length l <= 1)%nat.
Proof.
  assert (Hsimple : forall e,
             exists l,
               Tandem.events (snd (Tandem.simpleSimulate e s))
               = Tandem.events s ++ l /\ (length l <= 1)%nat).
  { intros e.
    destruct (JS.gt (Tandem.currTimestamp s) (Event.time e)) eqn:G.
    - rewrite (simpleSimulate_throws _ _ _ G). exists [].
      simpl. rewrite app_nil_r. split; [reflexivity | lia].
    - rewrite (simpleSimulate_passes _ _ _ G). exists [e].
      simpl. split; [reflexivity | lia]. }
  destruct c; simpl; try apply Hsimple.
  - destruct (JS.gt (Tandem.currTimestamp s) (Event.time event)) eqn:G.
    + rewrite (basal_throws _ _ _ G). exists [].
      simpl. rewrite app_nil_r. split; [reflexivity | lia].
    + run_tandem. rewrite G. simpl.
      destruct (Tandem.currBasal s) as [cb|]; simpl.
      * destruct (negb (Event.time cb =? Event.time event)%string); simpl.
        -- eexists. split; [reflexivity | simpl; lia].
        -- exists []. rewrite app_nil_r. split; [reflexivity | simpl; lia].
      * exists []. rewrite app_nil_r. split; [reflexivity | simpl; lia].
  - run_tandem. destruct (Tandem.currBasal s) as [cb|]; simpl.
    + eexists. split; [reflexivity | simpl; lia].
    + exists []. rewrite app_nil_r. split; [reflexivity | simpl; lia].
Qed.

(** X4. No call takes an event back or rewrites one: after any calls, one
    that throws among them or not, the events array is what it was with
    at most one new event per call appended. *)
Theorem session_only_appends
  (cs : list Tandem.call) (s : Tandem.state Settings) :
  exists l,
    Tandem.events (snd (Tandem.session finalScheduledBasal cs s))
    = Tandem.events s ++ l
    /\ (length l <= length cs)%nat.
Proof.
  revert s. induction cs as [|c r IH]; intros s; simpl.
  - exists []. rewrite app_nil_r. split; [reflexivity | simpl; lia].
  - unfold JS.bind.
    destruct (perform_appends c s) as [l1 [H1 L1]].
    destruct (Tandem.perform finalScheduledBasal c s) as [[[]|err] s1];
      simpl in *.
    + destruct (IH s1) as [l2 [H2 L2]].
      exists (l1 ++ l2). rewrite H2, H1, app_assoc.
      split; [reflexivity|]. rewrite length_app. lia.
    + exists l1. split; [exact H1 | lia].
Qed.

End TandemAppends.

(** ** Segments one after the other *)

Lemma closed_by_omit (b cb raw : Event.t) :
  Event.omit_previous cb = Event.omit_previous raw ->
  Event.omit_previous (closed_by b cb) = Event.omit_previous (closed_by b raw).
Proof.
  destruct cb as [ty st tm ix dt rt du nm ex en ee ed bo pr an re].
  destruct raw as [ty' st' tm' ix' dt' rt' du' nm' ex' en' ee' ed' bo' pr'
                     an' re'].
  unfold Event.omit_previous, Event.set_previous, closed_by. simpl.
  intros H. inversion H. subst. destruct du'; reflexivity.
Qed.

Lemma closed_by_previous (b cb : Event.t) :
  Event.previous (closed_by b cb) = Event.previous cb.
Proof. unfold closed_by. destruct (Event.duration cb); reflexivity. Qed.

Lemma closings_fields (bs : list Event.t) :
  forall cb raw : Event.t,
    Event.omit_previous cb = Event.omit_previous raw ->
    Forall2 (fun out p =>
               Event.omit_previous out
               = Event.omit_previous (closed_by (snd p) (fst p)))
      (fst (closings cb bs)) (combine (raw :: bs) bs)
    /\ Event.omit_previous (snd (closings cb bs))
       = Event.omit_previous (last bs raw).
Proof.
  induction bs as [|b r IH]; intros cb raw H.
  - split; [constructor | exact H].
  - destruct (IH (Event.set_previous
                    (Some (Event.omit_previous (closed_by b cb))) b)
                 b eq_refl) as [H1 H2].
    split.
    + simpl. constructor; [apply closed_by_omit; exact H | exact H1].
    + simpl closings. simpl snd. rewrite H2, last_cons. reflexivity.
Qed.

Lemma closings_linked (bs : list Event.t) :
  forall cb : Event.t,
    linked (fst (closings cb bs) ++ [snd (closings cb bs)])
    /\ match fst (closings cb bs) ++ [snd (closings cb bs)] with
       | x :: _ => Event.previous x = Event.previous cb
       | [] => False
       end.
Proof.
  induction bs as [|b r IH]; intros cb.
  - simpl. repeat split.
  - specialize (IH (Event.set_previous
                      (Some (Event.omit_previous (closed_by b cb))) b)).
    destruct IH as [H1 H2]. simpl closings. simpl fst. simpl snd.
    rewrite <- app_comm_cons. split; [|apply closed_by_previous].
    simpl linked.
    destruct (fst (closings
                     (Event.set_previous
                        (Some (Event.omit_previous (closed_by b cb))) b) r)
              ++ [snd (closings
                         (Event.set_previous
                            (Some (Event.omit_previous (closed_by b cb))) b)
                         r)]) as [|y t]; [contradiction|].
    split; [exact H2 | exact H1].
Qed.

Section TandemRuns.

Variable Settings : Type.
Variable finalScheduledBasal : Event.t -> Settings -> string -> Event.t.

(** Segments arriving one after the other, each later than the one before,
    do to the simulator what [closings] says. *)
Lemma basal_run (bs : list Event.t) :
  forall (s : Tandem.state Settings) (cb : Event.t),
    Tandem.currBasal s = Some cb ->
    Tandem.currTimestamp s = Some (Event.time cb) ->
    ascending_times (Some (Event.time cb)) (map Event.time bs) ->
    exists s',
      Tandem.session finalScheduledBasal (map Tandem.Basal bs) s
      = (JS.Ok tt, s')
      /\ Tandem.events s' = Tandem.events s ++ fst (closings cb bs)
      /\ Tandem.currBasal s' = Some (snd (closings cb bs)).
Proof.
  induction bs as [|b r IH]; intros s cb Hcb Hts Ho.
  - exists s. simpl. rewrite app_nil_r. repeat split. exact Hcb.
  - simpl in Ho. destruct Ho as [Hlt Ho].
    apply ltb_not_gt in Hlt. destruct Hlt as [Hg Hne].
    apply String.eqb_neq in Hne.
    pose (closed := closed_by b cb).
    pose (next := Event.set_previous
                    (Some (Event.omit_previous closed)) b).
    assert (Hstep :
      Tandem.basal b s
      = (JS.Ok tt,
         Tandem.set_currBasal (Some next)
           (Tandem.set_events (Tandem.events s ++ [closed])
              (Tandem.set_currBasal (Some closed)
                 (Tandem.set_currTimestamp (Some (Event.time b)) s))))).
    { run_tandem. rewrite Hts. simpl. rewrite Hg. simpl.
      rewrite Hcb, Hne. simpl.
      unfold next, closed, closed_by, Builder.done, Builder.with_duration,
        Builder.isAssigned_duration.
      destruct (Event.duration cb); reflexivity. }
    destruct (IH (Tandem.set_currBasal (Some next)
                    (Tandem.set_events (Tandem.events s ++ [closed])
                       (Tandem.set_currBasal (Some closed)
                          (Tandem.set_currTimestamp
                             (Some (Event.time b)) s))))
                 next eq_refl eq_refl Ho) as [s' [H1 [H2 H3]]].
    exists s'. simpl. unfold JS.bind. rewrite Hstep.
    split; [exact H1|]. split; [|exact H3].
    rewrite H2. simpl. rewrite <- app_assoc. reflexivity.
Qed.

Lemma basal_run_fresh
  (c : option (Tandem.config Settings)) (b1 : Event.t) (r : list Event.t) :
  ascending_times None (map Event.time (b1 :: r)) ->
  exists s',
    Tandem.session finalScheduledBasal (map Tandem.Basal (b1 :: r))
      (Tandem.make c)
    = (JS.Ok tt, s')
    /\ Tandem.events s' = fst (closings b1 r)
    /\ Tandem.currBasal s' = Some (snd (closings b1 r)).
Proof.
  intros [_ Ho].
  destruct (basal_run r
              (Tandem.set_currBasal (Some b1)
                 (Tandem.set_currTimestamp (Some (Event.time b1))
                    (Tandem.make c)))
              b1 eq_refl eq_refl Ho) as [s' [H1 [H2 H3]]].
  exists s'. split; [|split; assumption].
  simpl. unfold JS.bind at 1. exact H1.
Qed.

(** X5. Segments taken in by a new simulator, each stamped strictly later
    than the one before: no call throws; all but the last are emitted, in
    the order they arrived, and the last is the open one. But for
    [previous], each emitted segment is the segment that arrived, with its
    declared duration if it had one and otherwise with the time of its
    successor less its own. *)
Theorem segments_closed_by_successors
  (c : option (Tandem.config Settings)) (b1 : Event.t) (r : list Event.t) :
  ascending_times None (map Event.time (b1 :: r)) ->
  exists s' open,
    Tandem.session finalScheduledBasal (map Tandem.Basal (b1 :: r))
      (Tandem.make c)
    = (JS.Ok tt, s')
    /\ Tandem.currBasal s' = Some open
    /\ Event.omit_previous open = Event.omit_previous (last r b1)
    /\ Forall2 (fun out p =>
                  Event.omit_previous out
                  = Event.omit_previous (closed_by (snd p) (fst p)))
         (Tandem.events s') (combine (b1 :: r) r).
Proof.
  intros Ho. destruct (basal_run_fresh c b1 r Ho) as [s' [H1 [H2 H3]]].
  destruct (closings_fields r b1 b1 eq_refl) as [F L].
  exists s', (snd (closings b1 r)).
  split; [exact H1|]. split; [exact H3|]. split; [exact L|].
  rewrite H2. exact F.
Qed.

(** X6. In such a run every segment but the first carries the segment
    emitted before it, less that one's own [previous], as its [previous]:
    the emitted segments and the open one after them are linked one to the
    next; the first keeps the [previous] it came with. *)
Theorem segments_linked_by_previous
  (c : option (Tandem.config Settings)) (b1 : Event.t) (r : list Event.t) :
  ascending_times None (map Event.time (b1 :: r)) ->
  exists s' open,
    Tandem.session finalScheduledBasal (map Tandem.Basal (b1 :: r))
      (Tandem.make c)
    = (JS.Ok tt, s')
    /\ Tandem.currBasal s' = Some open
    /\ linked (Tandem.events s' ++ [open])
    /\ match Tandem.events s' ++ [open] with
       | x :: _ => Event.previous x = Event.previous b1
       | [] => False
       end.
Proof.
  intros Ho. destruct (basal_run_fresh c b1 r Ho) as [s' [H1 [H2 H3]]].
  exists s', (snd (closings b1 r)).
  split; [exact H1|]. split; [exact H3|].
  rewrite H2. apply closings_linked.
Qed.

End TandemRuns.

Lemma segments_closed_by_successors_witness :
  exists s' open,
    Tandem.session Vectors.noFinalizer
      (map Tandem.Basal [Vectors.basal1; Vectors.basal2; Vectors.basal3])
      (Tandem.make None)
    = (JS.Ok tt, s')
    /\ Tandem.currBasal s' = Some open
    /\ Event.omit_previous open = Event.omit_previous Vectors.basal3
    /\ Forall2 (fun out p =>
                  Event.omit_previous out
                  = Event.omit_previous (closed_by (snd p) (fst p)))
         (Tandem.events s')
         [(Vectors.basal1, Vectors.basal2); (Vectors.basal2, Vectors.basal3)].
Proof.
  apply (segments_closed_by_successors unit Vectors.noFinalizer None
           Vectors.basal1 [Vectors.basal2; Vectors.basal3]).
  simpl. repeat split.
Defined.

Lemma segments_linked_by_previous_witness :
  exists s' open,
    Tandem.session Vectors.noFinalizer
      (map Tandem.Basal [Vectors.basal1; Vectors.basal2; Vectors.basal3])
      (Tandem.make None)
    = (JS.Ok tt, s')
    /\ Tandem.currBasal s' = Some open
    /\ linked (Tandem.events s' ++ [open])
    /\ match Tandem.events s' ++ [open] with
       | x :: _ => Event.previous x = Event.previous Vectors.basal1
       | [] => False
       end.
Proof.
  apply (segments_linked_by_previous unit Vectors.noFinalizer None
           Vectors.basal1 [Vectors.basal2; Vectors.basal3]).
  simpl. repeat split.
Defined.

(** ** The step of the offset *)

(** X7. Whatever the change, [adjustCurrentOffset] moves the offset by a
    whole number of hours and by no more than 1560 minutes either way; a
    change whose dates give [NaN] for their difference moves it by
    nothing. *)
Theorem adjustCurrentOffset_step
  (event : TimezoneOffsetUtil.timeChange) (currentOffset : Z) :
  (exists k,
      TimezoneOffsetUtil.adjustCurrentOffset event currentOffset
      - currentOffset = 60 * k)
  /\ - 1560
     <= TimezoneOffsetUtil.adjustCurrentOffset event currentOffset
        - currentOffset
     <= 1560
  /\ (sundial.dateDifference (TimezoneOffsetUtil.change_from event)
        (TimezoneOffsetUtil.change_to event) = None ->
      TimezoneOffsetUtil.adjustCurrentOffset event currentOffset
      = currentOffset).
Proof.
  unfold TimezoneOffsetUtil.adjustCurrentOffset,
    TimezoneOffsetUtil.findOffsetDifference, TimezoneOffsetUtil.MAX_DIFF.
  destruct (sundial.dateDifference _ _) as [d|];
    [|split; [exists 0; lia|]; split; [lia|reflexivity]].
  match goal with
  | |- ?A /\ ?B /\ _ =>
      enough (E : A /\ B)
        by (destruct E as [E1 E2];
            split; [exact E1|split; [exact E2|discriminate]])
  end.
  unfold round_to.
  assert (D1 : 2 * d + 15
               = 30 * ((2 * d + 15) / 30) + (2 * d + 15) mod 30)
    by (apply Z.div_mod; lia).
  assert (B1 : 0 <= (2 * d + 15) mod 30 < 30)
    by (apply Z.mod_pos_bound; lia).
  assert (D2 : 2 * d + 60
               = 120 * ((2 * d + 60) / 120) + (2 * d + 60) mod 120)
    by (apply Z.div_mod; lia).
  assert (B2 : 0 <= (2 * d + 60) mod 120 < 120)
    by (apply Z.mod_pos_bound; lia).
  change (2 * 15) with 30. change (2 * 60) with 120.
  destruct (Z.leb_spec (Z.abs ((2 * d + 15) / 30 * 15)) 1560) as [H|H].
  - split; [exists ((2 * d + 60) / 120)|]; lia.
  - split; [exists 0|]; lia.
Qed.

Lemma adjustCurrentOffset_step_witness :
  sundial.dateDifference
    (TimezoneOffsetUtil.change_from Vectors.unreadableChange)
    (TimezoneOffsetUtil.change_to Vectors.unreadableChange) = None
  /\ TimezoneOffsetUtil.adjustCurrentOffset Vectors.unreadableChange (-420)
     = -420.
Proof.
  split; [reflexivity|].
  apply (proj2 (proj2 (adjustCurrentOffset_step Vectors.unreadableChange
                         (-420)))).
  reflexivity.
Defined.

(** ** The intervals the changes leave *)

Lemma contiguous_snoc (l : list TimezoneOffsetUtil.interval) :
  forall x y : TimezoneOffsetUtil.interval,
    contiguous (l ++ [x]) ->
    TimezoneOffsetUtil.start x = Some (TimezoneOffsetUtil.end_ y) ->
    contiguous ((l ++ [x]) ++ [y]).
Proof.
  induction l as [|a l IH]; intros x y Hc Hx.
  - simpl. repeat split. exact Hx.
  - simpl in Hc. destruct Hc as [Ha Hc].
    simpl. split; [|apply IH; assumption].
    destruct l; exact Ha.
Qed.

Section ResolverStructure.

Variable checkTimezoneName : string -> bool.
Variable applyTimezone : Z -> string -> Z.
Variable getOffsetFromZone : string -> string -> Z.

Let process := TimezoneOffsetUtil.process applyTimezone getOffsetFromZone.
Let create :=
  TimezoneOffsetUtil.create checkTimezoneName applyTimezone getOffsetFromZone.
Let lookup := TimezoneOffsetUtil.lookup applyTimezone getOffsetFromZone.
Let first_change :=
  TimezoneOffsetUtil.first_change applyTimezone getOffsetFromZone.

Lemma create_ok (timezone mostRecent : string)
  (changes : list TimezoneOffsetUtil.timeChange)
  (self : TimezoneOffsetUtil.t) :
  create timezone mostRecent changes = JS.Ok self ->
  checkTimezoneName timezone = true
  /\ is_nan (Date.parse mostRecent) = false
  /\ forallb TimezoneOffsetUtil.is_timeChange changes = true
  /\ TimezoneOffsetUtil.timezone self = timezone
  /\ TimezoneOffsetUtil.intervals self
     = fst (process timezone mostRecent changes).
Proof.
  unfold create, TimezoneOffsetUtil.create. fold process.
  destruct (checkTimezoneName timezone); simpl; [|discriminate].
  destruct (is_nan (Date.parse mostRecent)); [discriminate|].
  destruct (forallb TimezoneOffsetUtil.is_timeChange changes); simpl;
    [|discriminate].
  destruct (process timezone mostRecent changes) as [ivs recs].
  intros H. inversion H. repeat split.
Qed.

Lemma process_sorted (timezone mostRecent : string)
  (changes : list TimezoneOffsetUtil.timeChange)
  (c0 : TimezoneOffsetUtil.timeChange)
  (rest : list TimezoneOffsetUtil.timeChange) :
  TimezoneOffsetUtil.sorted_changes changes = c0 :: rest ->
  fst (process timezone mostRecent changes)
  = all_intervals
      (fold_left TimezoneOffsetUtil.next_change rest
         (first_change timezone mostRecent c0)).
Proof.
  intros H. unfold process, TimezoneOffsetUtil.process. rewrite H.
  reflexivity.
Qed.

Lemma sorted_changes_nonempty
  (changes : list TimezoneOffsetUtil.timeChange) :
  changes <> [] ->
  exists c0 rest, TimezoneOffsetUtil.sorted_changes changes = c0 :: rest.
Proof.
  intros Hne. pose proof (sorted_changes_perm changes) as Hp.
  destruct (TimezoneOffsetUtil.sorted_changes changes) as [|c0 rest].
  - apply Permutation_nil in Hp. contradiction.
  - exists c0, rest. reflexivity.
Qed.

Lemma next_changes_bounds (rest : list TimezoneOffsetUtil.timeChange) :
  forall st : TimezoneOffsetUtil.loop,
    map bounds
      (all_intervals (fold_left TimezoneOffsetUtil.next_change rest st))
    = map bounds (TimezoneOffsetUtil.offsetIntervals st)
      ++ combine
           (map Some (TimezoneOffsetUtil.currentIndex st :: indices rest))
           (map Some (indices rest) ++ [None]).
Proof.
  induction rest as [|c r IH]; intros st.
  - unfold all_intervals. simpl. rewrite map_app. reflexivity.
  - simpl fold_left. rewrite IH. simpl.
    rewrite map_app, <- app_assoc. reflexivity.
Qed.

Lemma next_changes_offsets (rest : list TimezoneOffsetUtil.timeChange) :
  forall st : TimezoneOffsetUtil.loop,
    map TimezoneOffsetUtil.offset
      (all_intervals (fold_left TimezoneOffsetUtil.next_change rest st))
    = map TimezoneOffsetUtil.offset (TimezoneOffsetUtil.offsetIntervals st)
      ++ offsets_from (TimezoneOffsetUtil.currentOffset st) rest.
Proof.
  induction rest as [|c r IH]; intros st.
  - unfold all_intervals. simpl. rewrite map_app. reflexivity.
  - simpl fold_left. rewrite IH. simpl.
    rewrite map_app, <- app_assoc. reflexivity.
Qed.

Lemma next_changes_contiguous (rest : list TimezoneOffsetUtil.timeChange) :
  forall (st : TimezoneOffsetUtil.loop)
         (l : list TimezoneOffsetUtil.interval)
         (x : TimezoneOffsetUtil.interval),
    TimezoneOffsetUtil.offsetIntervals st = l ++ [x] ->
    contiguous (l ++ [x]) ->
    TimezoneOffsetUtil.start x = Some (TimezoneOffsetUtil.lastTime st) ->
    exists l' z,
      all_intervals (fold_left TimezoneOffsetUtil.next_change rest st)
      = (l ++ [x]) ++ l' ++ [z]
      /\ contiguous ((l ++ [x]) ++ l' ++ [z])
      /\ TimezoneOffsetUtil.start z = None.
Proof.
  induction rest as [|c r IH]; intros st l x Hst Hc Hx.
  - exists [], (TimezoneOffsetUtil.last_interval st).
    unfold all_intervals. simpl fold_left. rewrite Hst. simpl app.
    split; [reflexivity|]. split; [|reflexivity].
    apply contiguous_snoc; [exact Hc | exact Hx].
  - simpl fold_left.
    pose (y := {| TimezoneOffsetUtil.start :=
                    Some (Date.toISOString
                            (sundial.applyOffset
                               (TimezoneOffsetUtil.date_of c)
                               (- TimezoneOffsetUtil.currentOffset st)));
                  TimezoneOffsetUtil.end_ := TimezoneOffsetUtil.lastTime st;
                  TimezoneOffsetUtil.startIndex :=
                    Some (TimezoneOffsetUtil.currentIndex st);
                  TimezoneOffsetUtil.endIndex :=
                    Some (TimezoneOffsetUtil.index c);
                  TimezoneOffsetUtil.offset :=
                    TimezoneOffsetUtil.currentOffset st |}).
    destruct (IH (TimezoneOffsetUtil.next_change st c) (l ++ [x]) y)
      as [l' [z [H1 [H2 H3]]]].
    + simpl. rewrite Hst. reflexivity.
    + apply contiguous_snoc; [exact Hc | exact Hx].
    + reflexivity.
    + exists (y :: l'), z. split; [|split; [|exact H3]].
      * rewrite H1. rewrite <- (app_assoc (l ++ [x]) [y]). reflexivity.
      * rewrite <- (app_assoc (l ++ [x]) [y]) in H2. exact H2.
Qed.

End ResolverStructure.

Section ResolverIntervals.

Variable checkTimezoneName : string -> bool.
Variable applyTimezone : Z -> string -> Z.
Variable getOffsetFromZone : string -> string -> Z.

Variables timezone mostRecent : string.
Variable changes : list TimezoneOffsetUtil.timeChange.
Variable self : TimezoneOffsetUtil.t.

Hypothesis created :
  TimezoneOffsetUtil.create checkTimezoneName applyTimezone getOffsetFromZone
    timezone mostRecent changes = JS.Ok self.

(** X8. The index bounds of the intervals are the indices of the changes,
    from the greatest down: the first interval has no start index and ends
    at the greatest index, each one after it starts at the index the one
    before ends at, and the last has no end index. There is one interval
    more than there are changes. *)
Theorem interval_bounds_are_change_indices :
  changes <> [] ->
  map bounds (TimezoneOffsetUtil.intervals self)
  = combine
      (None :: map Some (indices (TimezoneOffsetUtil.sorted_changes changes)))
      (map Some (indices (TimezoneOffsetUtil.sorted_changes changes))
       ++ [None])
  /\ length (TimezoneOffsetUtil.intervals self) = S (length changes).
Proof.
  intros Hne.
  destruct (create_ok _ _ _ _ _ _ _ created) as [_ [_ [_ [_ Hiv]]]].
  destruct (sorted_changes_nonempty changes Hne) as [c0 [rest Hs]].
  assert (Hb : map bounds (TimezoneOffsetUtil.intervals self)
               = combine
                   (None :: map Some (indices (c0 :: rest)))
                   (map Some (indices (c0 :: rest)) ++ [None])).
  { rewrite Hiv, (process_sorted _ _ _ _ _ _ _ Hs), next_changes_bounds.
    reflexivity. }
  rewrite Hs. split; [exact Hb|].
  apply (f_equal (@length _)) in Hb.
  rewrite length_map, length_combine, length_app in Hb.
  cbn [length] in Hb. rewrite !length_map in Hb.
  pose proof (Permutation_length (sorted_changes_perm changes)) as Hl.
  rewrite Hs in Hl. cbn [length] in Hl.
  unfold indices in Hb. rewrite length_map in Hb. cbn [length] in Hb. lia.
Qed.

(** X9. The offset of the first interval is the offset of the timezone at
    the most recent change, and the offset of each interval after it is the
    offset of the one before, adjusted by the change between the two. *)
Theorem interval_offsets_accumulate
  (c0 : TimezoneOffsetUtil.timeChange)
  (rest : list TimezoneOffsetUtil.timeChange) :
  TimezoneOffsetUtil.sorted_changes changes = c0 :: rest ->
  map TimezoneOffsetUtil.offset (TimezoneOffsetUtil.intervals self)
  = offsets_from
      (getOffsetFromZone
         (Date.toISOString
            (applyTimezone (TimezoneOffsetUtil.date_of c0) timezone))
         timezone)
      (c0 :: rest).
Proof.
  intros Hs.
  destruct (create_ok _ _ _ _ _ _ _ created) as [_ [_ [_ [_ Hiv]]]].
  rewrite Hiv, (process_sorted _ _ _ _ _ _ _ Hs), next_changes_offsets.
  reflexivity.
Qed.

Lemma adjustCurrentOffset_whole_hours
  (c : TimezoneOffsetUtil.timeChange) (o : Z) :
  exists k, TimezoneOffsetUtil.adjustCurrentOffset c o - o = 60 * k.
Proof.
  unfold TimezoneOffsetUtil.adjustCurrentOffset,
    TimezoneOffsetUtil.findOffsetDifference.
  destruct (sundial.dateDifference _ _) as [d|]; [|exists 0; lia].
  destruct (Z.abs (round_to 15 d) <=? TimezoneOffsetUtil.MAX_DIFF);
    [|exists 0; lia].
  exists ((2 * d + 60) / (2 * 60)). unfold round_to. lia.
Qed.

Lemma offsets_from_hours (cs : list TimezoneOffsetUtil.timeChange) :
  forall o x, In x (offsets_from o cs) -> exists k, x - o = 60 * k.
Proof.
  induction cs as [|c r IH]; intros o x Hx; simpl in Hx.
  - destruct Hx as [<-|[]]. exists 0. lia.
  - destruct Hx as [<-|Hx]; [exists 0; lia|].
    destruct (IH _ _ Hx) as [k Hk].
    destruct (adjustCurrentOffset_whole_hours c o) as [k' Hk'].
    exists (k + k'). lia.
Qed.

(** X10. The offsets of any two intervals differ by a whole number of
    hours: a change of the clock by a quarter or half of an hour never shows
    between two intervals as it was made. *)
Theorem interval_offsets_differ_by_hours
  (iv1 iv2 : TimezoneOffsetUtil.interval) :
  In iv1 (TimezoneOffsetUtil.intervals self) ->
  In iv2 (TimezoneOffsetUtil.intervals self) ->
  exists k,
    TimezoneOffsetUtil.offset iv1 - TimezoneOffsetUtil.offset iv2 = 60 * k.
Proof.
  intros H1 H2.
  destruct (create_ok _ _ _ _ _ _ _ created) as [_ [_ [_ [_ Hiv]]]].
  destruct changes as [|c cs] eqn:Hch.
  - rewrite Hiv in H1. simpl in H1. destruct H1.
  - destruct (sorted_changes_nonempty (c :: cs)) as [c0 [rest Hs]];
      [discriminate|].
    assert (Ho : map TimezoneOffsetUtil.offset
                   (TimezoneOffsetUtil.intervals self)
                 = offsets_from
                     (getOffsetFromZone
                        (Date.toISOString
                           (applyTimezone (TimezoneOffsetUtil.date_of c0)
                              timezone))
                        timezone)
                     (c0 :: rest)).
    { rewrite Hiv, (process_sorted _ _ _ _ _ _ _ Hs), next_changes_offsets.
      reflexivity. }
    apply (in_map TimezoneOffsetUtil.offset) in H1, H2.
    rewrite Ho in H1, H2.
    destruct (offsets_from_hours _ _ _ H1) as [k1 E1].
    destruct (offsets_from_hours _ _ _ H2) as [k2 E2].
    exists (k1 - k2). lia.
Qed.

(** X11. The intervals are contiguous in time: the first ends at the time
    of the most recent datum, each starts where the one after it ends, and
    the last has no start. *)
Theorem intervals_are_contiguous :
  changes <> [] ->
  contiguous (TimezoneOffsetUtil.intervals self)
  /\ (exists iv r,
         TimezoneOffsetUtil.intervals self = iv :: r
         /\ TimezoneOffsetUtil.end_ iv = mostRecent)
  /\ (exists l z,
         TimezoneOffsetUtil.intervals self = l ++ [z]
         /\ TimezoneOffsetUtil.start z = None).
Proof.
  intros Hne.
  destruct (create_ok _ _ _ _ _ _ _ created) as [_ [_ [_ [_ Hiv]]]].
  destruct (sorted_changes_nonempty changes Hne) as [c0 [rest Hs]].
  rewrite Hiv, (process_sorted _ _ _ _ _ _ _ Hs).
  destruct (next_changes_contiguous rest
              (TimezoneOffsetUtil.first_change applyTimezone
                 getOffsetFromZone timezone mostRecent c0)
              [] _ eq_refl (conj I I) eq_refl) as [l' [z [H1 [H2 H3]]]].
  rewrite H1. split; [exact H2|]. split.
  - simpl. do 2 eexists. split; reflexivity.
  - eexists. exists z. split; [|exact H3].
    rewrite app_assoc. reflexivity.
Qed.

End ResolverIntervals.

(** ** Looking up *)

Lemma scan_app_found (ivs more : list TimezoneOffsetUtil.interval)
  (d : Z) (idx : option Z) :
  TimezoneOffsetUtil.scan ivs d idx <> None ->
  TimezoneOffsetUtil.scan (ivs ++ more) d idx <> None.
Proof.
  induction ivs as [|iv r IH];
    [intros H; exfalso; apply H; reflexivity|].
  cbn [TimezoneOffsetUtil.scan app].
  destruct (TimezoneOffsetUtil.covers iv _ idx); [discriminate | exact IH].
Qed.

Lemma scan_app_last (ivs : list TimezoneOffsetUtil.interval)
  (iv : TimezoneOffsetUtil.interval) (d : Z) (idx : option Z) :
  (forall utc, TimezoneOffsetUtil.covers iv utc idx = true) ->
  TimezoneOffsetUtil.scan (ivs ++ [iv]) d idx <> None.
Proof.
  intros H. induction ivs as [|x r IH]; cbn [TimezoneOffsetUtil.scan app].
  - rewrite H. discriminate.
  - destruct (TimezoneOffsetUtil.covers x _ idx); [discriminate | exact IH].
Qed.

Lemma scan_result (ivs : list TimezoneOffsetUtil.interval)
  (d : Z) (idx : option Z) (res : TimezoneOffsetUtil.utcInfo) :
  TimezoneOffsetUtil.scan ivs d idx = Some res ->
  TimezoneOffsetUtil.info_time res
  = Date.toISOString
      (sundial.applyOffset d (- TimezoneOffsetUtil.info_timezoneOffset res))
  /\ exists iv, In iv ivs
                /\ TimezoneOffsetUtil.offset iv
                   = TimezoneOffsetUtil.info_timezoneOffset res.
Proof.
  induction ivs as [|iv r IH]; cbn [TimezoneOffsetUtil.scan]; [discriminate|].
  destruct (TimezoneOffsetUtil.covers iv _ idx).
  - intros H. inversion H. simpl. split; [reflexivity|].
    exists iv. split; [left; reflexivity | reflexivity].
  - intros H. destruct (IH H) as [H1 [iv' [H2 H3]]].
    split; [exact H1|]. exists iv'. split; [right; exact H2 | exact H3].
Qed.

(** An index that is the index of no change to come is either found in an
    interval already pushed or lies below [currentIndex], time after time
    round the loop. *)
Lemma next_changes_find (d x : Z)
  (rest : list TimezoneOffsetUtil.timeChange) :
  forall st : TimezoneOffsetUtil.loop,
    TimezoneOffsetUtil.scan (TimezoneOffsetUtil.offsetIntervals st) d (Some x)
    <> None
    \/ x < TimezoneOffsetUtil.currentIndex st ->
    ~ In x (indices rest) ->
    TimezoneOffsetUtil.scan
      (all_intervals (fold_left TimezoneOffsetUtil.next_change rest st))
      d (Some x)
    <> None.
Proof.
  induction rest as [|c r IH]; intros st Hst Hx.
  - unfold all_intervals. simpl fold_left. destruct Hst as [H|H].
    + apply scan_app_found. exact H.
    + apply scan_app_last. intros utc. simpl.
      apply Z.ltb_lt. exact H.
  - simpl fold_left. apply IH.
    + simpl. destruct Hst as [H|H].
      * left. apply scan_app_found. exact H.
      * destruct (Z_lt_le_dec (TimezoneOffsetUtil.index c) x) as [G|G].
        -- left. apply scan_app_last. intros utc. simpl.
           apply andb_true_intro. split.
           ++ apply Z.ltb_lt. exact H.
           ++ rewrite Z.gtb_ltb. apply Z.ltb_lt. exact G.
        -- right. assert (x <> TimezoneOffsetUtil.index c).
           { intros E. apply Hx. left. symmetry. exact E. }
           lia.
    + intros H. apply Hx. right. exact H.
Qed.

Section ResolverLookups.

Variable checkTimezoneName : string -> bool.
Variable applyTimezone : Z -> string -> Z.
Variable getOffsetFromZone : string -> string -> Z.

Variables timezone mostRecent : string.
Variable changes : list TimezoneOffsetUtil.timeChange.
Variable self : TimezoneOffsetUtil.t.

Hypothesis created :
  TimezoneOffsetUtil.create checkTimezoneName applyTimezone getOffsetFromZone
    timezone mostRecent changes = JS.Ok self.

(** X12. A lookup with a sequence index that is the index of no clock
    change always finds an interval, whatever the date: it returns a time
    and an offset. *)
Theorem lookup_off_change_index_is_defined (datetime idx : Z) :
  ~ In idx (indices changes) ->
  exists res,
    TimezoneOffsetUtil.lookup applyTimezone getOffsetFromZone self datetime
      (Some idx)
    = Some res.
Proof.
  intros Hx.
  destruct (create_ok _ _ _ _ _ _ _ created) as [_ [_ [_ [_ Hiv]]]].
  assert (Hdef : TimezoneOffsetUtil.lookup applyTimezone getOffsetFromZone
                   self datetime (Some idx) <> None).
  { unfold TimezoneOffsetUtil.lookup. rewrite Hiv.
    pose proof (sorted_changes_perm changes) as Hp.
    destruct (TimezoneOffsetUtil.sorted_changes changes) as [|c0 rest] eqn:Hs.
    - unfold TimezoneOffsetUtil.process. rewrite Hs. simpl. discriminate.
    - rewrite (process_sorted _ _ _ _ _ _ _ Hs).
      assert (Hnot : ~ In idx (indices (c0 :: rest))).
      { intros H. apply Hx. unfold indices in *.
        apply in_map_iff in H. destruct H as [c [<- Hc]].
        apply in_map. apply (Permutation_in _ Hp). exact Hc. }
      assert (Hfind :
        TimezoneOffsetUtil.scan
          (all_intervals
             (fold_left TimezoneOffsetUtil.next_change rest
                (TimezoneOffsetUtil.first_change applyTimezone
                   getOffsetFromZone timezone mostRecent c0)))
          datetime (Some idx) <> None).
      { apply next_changes_find.
        - simpl.
          destruct (Z_lt_le_dec (TimezoneOffsetUtil.index c0) idx) as [G|G].
          + left. rewrite Z.gtb_ltb.
            replace (TimezoneOffsetUtil.index c0 <? idx) with true;
              [discriminate|]. symmetry. apply Z.ltb_lt. exact G.
          + right. assert (idx <> TimezoneOffsetUtil.index c0).
            { intros E. apply Hnot. left. symmetry. exact E. }
            lia.
        - intros H. apply Hnot. right. exact H. }
      destruct (all_intervals _) as [|iv r]; [|exact Hfind].
      exfalso. apply Hfind. reflexivity. }
  destruct (TimezoneOffsetUtil.lookup applyTimezone getOffsetFromZone self
              datetime (Some idx)) as [res|]; [|contradiction].
  exists res. reflexivity.
Qed.

(** X13. When there are clock changes, whatever a lookup returns, by index
    or by time: the time is the date given, moved back by the offset
    returned, and the offset is that of one of the intervals. *)
Theorem lookup_result_is_shifted_date
  (datetime : Z) (idx : option Z) (res : TimezoneOffsetUtil.utcInfo) :
  changes <> [] ->
  TimezoneOffsetUtil.lookup applyTimezone getOffsetFromZone self datetime idx
  = Some res ->
  TimezoneOffsetUtil.info_time res
  = Date.toISOString
      (sundial.applyOffset datetime
         (- TimezoneOffsetUtil.info_timezoneOffset res))
  /\ exists iv, In iv (TimezoneOffsetUtil.intervals self)
                /\ TimezoneOffsetUtil.offset iv
                   = TimezoneOffsetUtil.info_timezoneOffset res.
Proof.
  intros Hne.
  destruct (create_ok _ _ _ _ _ _ _ created) as [_ [_ [_ [_ Hiv]]]].
  destruct (sorted_changes_nonempty changes Hne) as [c0 [rest Hs]].
  unfold TimezoneOffsetUtil.lookup.
  rewrite Hiv, (process_sorted _ _ _ _ _ _ _ Hs).
  destruct (all_intervals _) as [|iv r] eqn:E.
  - exfalso. unfold all_intervals in E. apply app_eq_nil in E.
    destruct E as [_ E]. discriminate E.
  - apply scan_result.
Qed.

End ResolverLookups.

Section ResolverEdges.

Variable checkTimezoneName : string -> bool.
Variable applyTimezone : Z -> string -> Z.
Variable getOffsetFromZone : string -> string -> Z.

(** X14. With no clock changes the resolver has no intervals, and every
    lookup, with an index or without, applies the timezone to the date: the
    time is the date in that zone and the offset the one the zone has at
    that time. It never returns nothing. *)
Theorem lookup_without_changes
  (timezone mostRecent : string) (self : TimezoneOffsetUtil.t)
  (datetime : Z) (idx : option Z) :
  TimezoneOffsetUtil.create checkTimezoneName applyTimezone getOffsetFromZone
    timezone mostRecent [] = JS.Ok self ->
  TimezoneOffsetUtil.intervals self = []
  /\ TimezoneOffsetUtil.lookup applyTimezone getOffsetFromZone self datetime
       idx
     = Some {| TimezoneOffsetUtil.info_time :=
                 Date.toISOString (applyTimezone datetime timezone);
               TimezoneOffsetUtil.info_timezoneOffset :=
                 getOffsetFromZone
                   (Date.toISOString (applyTimezone datetime timezone))
                   timezone |}.
Proof.
  intros H.
  destruct (create_ok _ _ _ _ _ _ _ H) as [_ [_ [_ [Htz Hiv]]]].
  simpl in Hiv. split; [exact Hiv|].
  unfold TimezoneOffsetUtil.lookup. rewrite Hiv, Htz. reflexivity.
Qed.

(** X16. [fillInUTCInfo] on a datum whose sequence index is that of one of
    the clock changes, and is not 0, throws: the lookup returns nothing and
    reading the time of nothing is a type error. *)
Theorem fillInUTCInfo_at_change_index_throws
  (timezone mostRecent : string)
  (changes : list TimezoneOffsetUtil.timeChange)
  (self : TimezoneOffsetUtil.t)
  (c : TimezoneOffsetUtil.timeChange)
  (obj : TimezoneOffsetUtil.datum) (jsDate : Z) :
  TimezoneOffsetUtil.create checkTimezoneName applyTimezone getOffsetFromZone
    timezone mostRecent changes = JS.Ok self ->
  In c changes ->
  TimezoneOffsetUtil.datum_index obj = Some (TimezoneOffsetUtil.index c) ->
  TimezoneOffsetUtil.index c <> 0 ->
  TimezoneOffsetUtil.fillInUTCInfo applyTimezone getOffsetFromZone self obj
    jsDate
  = JS.Throw (JS.Error TimezoneOffsetUtil.TYPE_ERROR).
Proof.
  intros Hmk Hc Hobj Hnz.
  destruct (create_ok _ _ _ _ _ _ _ Hmk) as [_ [_ [_ [_ Hiv]]]].
  pose proof (process_misses applyTimezone getOffsetFromZone
                (indices changes) timezone mostRecent changes eq_refl) as Hm.
  pose proof (process_nonempty applyTimezone getOffsetFromZone
                timezone mostRecent changes c Hc) as Hne.
  rewrite <- Hiv in Hm, Hne.
  unfold TimezoneOffsetUtil.fillInUTCInfo, TimezoneOffsetUtil.lookup.
  rewrite Hobj.
  assert (Hix : TimezoneOffsetUtil.index_or_null
                  (Some (TimezoneOffsetUtil.index c))
                = Some (TimezoneOffsetUtil.index c)).
  { unfold TimezoneOffsetUtil.index_or_null.
    destruct (TimezoneOffsetUtil.index c); [contradiction | |]; reflexivity. }
  rewrite Hix.
  destruct (TimezoneOffsetUtil.intervals self) as [|iv r] eqn:E;
    [contradiction|].
  rewrite (scan_misses (indices changes) (iv :: r) jsDate
             (TimezoneOffsetUtil.index c) Hm).
  - reflexivity.
  - unfold indices. apply in_map. exact Hc.
Qed.

End ResolverEdges.

(** ** The resolver of the two changes *)

Lemma interval_bounds_are_change_indices_witness :
  exists self,
    Vectors.resolver Vectors.twoChanges = JS.Ok self
    /\ map bounds (TimezoneOffsetUtil.intervals self)
       = combine
           (None
            :: map Some
                 (indices
                    (TimezoneOffsetUtil.sorted_changes Vectors.twoChanges)))
           (map Some
              (indices (TimezoneOffsetUtil.sorted_changes Vectors.twoChanges))
            ++ [None])
    /\ length (TimezoneOffsetUtil.intervals self)
       = S (length Vectors.twoChanges).
Proof.
  eexists. split; [reflexivity|].
  apply (interval_bounds_are_change_indices Vectors.anyName Vectors.utcDate
           Vectors.utcOffset "UTC" "2014-09-26T00:00:00.000Z"
           Vectors.twoChanges _ eq_refl).
  discriminate.
Defined.

Lemma interval_offsets_accumulate_witness :
  exists self,
    Vectors.resolver Vectors.twoChanges = JS.Ok self
    /\ map TimezoneOffsetUtil.offset (TimezoneOffsetUtil.intervals self)
       = offsets_from
           (Vectors.utcOffset
              (Date.toISOString
                 (Vectors.utcDate
                    (TimezoneOffsetUtil.date_of Vectors.quarterChange) "UTC"))
              "UTC")
           [Vectors.quarterChange; Vectors.hourChange].
Proof.
  eexists. split; [reflexivity|].
  apply (interval_offsets_accumulate Vectors.anyName Vectors.utcDate
           Vectors.utcOffset "UTC" "2014-09-26T00:00:00.000Z"
           Vectors.twoChanges _ eq_refl
           Vectors.quarterChange [Vectors.hourChange]).
  reflexivity.
Defined.

Lemma interval_offsets_differ_by_hours_witness :
  exists self iv1 iv2,
    Vectors.resolver Vectors.twoChanges = JS.Ok self
    /\ TimezoneOffsetUtil.offset iv1 = 0
    /\ TimezoneOffsetUtil.offset iv2 = 60
    /\ exists k,
         TimezoneOffsetUtil.offset iv1 - TimezoneOffsetUtil.offset iv2
         = 60 * k.
Proof.
  eexists. eexists. eexists. split; [reflexivity|].
  split; [|split];
    [| | apply (interval_offsets_differ_by_hours Vectors.anyName
                  Vectors.utcDate Vectors.utcOffset "UTC"
                  "2014-09-26T00:00:00.000Z" Vectors.twoChanges _ eq_refl);
         [left; reflexivity | right; left; reflexivity]];
    reflexivity.
Defined.

Lemma intervals_are_contiguous_witness :
  exists self,
    Vectors.resolver Vectors.twoChanges = JS.Ok self
    /\ contiguous (TimezoneOffsetUtil.intervals self)
    /\ (exists iv r,
           TimezoneOffsetUtil.intervals self = iv :: r
           /\ TimezoneOffsetUtil.end_ iv = "2014-09-26T00:00:00.000Z")
    /\ (exists l z,
           TimezoneOffsetUtil.intervals self = l ++ [z]
           /\ TimezoneOffsetUtil.start z = None).
Proof.
  eexists. split; [reflexivity|].
  apply (intervals_are_contiguous Vectors.anyName Vectors.utcDate
           Vectors.utcOffset "UTC" "2014-09-26T00:00:00.000Z"
           Vectors.twoChanges _ eq_refl).
  discriminate.
Defined.

Lemma lookup_off_change_index_is_defined_witness :
  exists self,
    Vectors.resolver Vectors.twoChanges = JS.Ok self
    /\ exists res,
         TimezoneOffsetUtil.lookup Vectors.utcDate Vectors.utcOffset self
           1411609500000 (Some 7)
         = Some res.
Proof.
  eexists. split; [reflexivity|].
  apply (lookup_off_change_index_is_defined Vectors.anyName Vectors.utcDate
           Vectors.utcOffset "UTC" "2014-09-26T00:00:00.000Z"
           Vectors.twoChanges _ eq_refl 1411609500000 7).
  simpl. intros [H|[H|[]]]; discriminate H.
Defined.

Lemma lookup_result_is_shifted_date_witness :
  exists self res,
    Vectors.resolver Vectors.twoChanges = JS.Ok self
    /\ TimezoneOffsetUtil.lookup Vectors.utcDate Vectors.utcOffset self
         1411609500000 (Some 7)
       = Some res
    /\ TimezoneOffsetUtil.info_time res
       = Date.toISOString
           (sundial.applyOffset 1411609500000
              (- TimezoneOffsetUtil.info_timezoneOffset res))
    /\ exists iv, In iv (TimezoneOffsetUtil.intervals self)
                  /\ TimezoneOffsetUtil.offset iv
                     = TimezoneOffsetUtil.info_timezoneOffset res.
Proof.
  eexists. eexists. split; [reflexivity|]. split; [reflexivity|].
  apply (lookup_result_is_shifted_date Vectors.anyName Vectors.utcDate
           Vectors.utcOffset "UTC" "2014-09-26T00:00:00.000Z"
           Vectors.twoChanges _ eq_refl 1411609500000 (Some 7)).
  - discriminate.
  - reflexivity.
Defined.

Lemma lookup_without_changes_witness :
  exists self,
    Vectors.resolver [] = JS.Ok self
    /\ TimezoneOffsetUtil.intervals self = []
    /\ TimezoneOffsetUtil.lookup Vectors.utcDate Vectors.utcOffset self
         1411609500000 (Some 7)
       = Some {| TimezoneOffsetUtil.info_time := "2014-09-25T01:45:00.000Z";
                 TimezoneOffsetUtil.info_timezoneOffset := 0 |}.
Proof.
  eexists. split; [reflexivity|].
  apply (lookup_without_changes Vectors.anyName Vectors.utcDate
           Vectors.utcOffset "UTC" "2014-09-26T00:00:00.000Z" _
           1411609500000 (Some 7)).
  reflexivity.
Defined.

Lemma fillInUTCInfo_at_change_index_throws_witness :
  exists self,
    Vectors.resolver Vectors.twoChanges = JS.Ok self
    /\ TimezoneOffsetUtil.fillInUTCInfo Vectors.utcDate Vectors.utcOffset self
         {| TimezoneOffsetUtil.datum_index := Some 10;
            TimezoneOffsetUtil.datum_time := None;
            TimezoneOffsetUtil.datum_timezoneOffset := None |}
         1411609500000
       = JS.Throw (JS.Error TimezoneOffsetUtil.TYPE_ERROR).
Proof.
  eexists. split; [reflexivity|].
  apply (fillInUTCInfo_at_change_index_throws Vectors.anyName Vectors.utcDate
           Vectors.utcOffset "UTC" "2014-09-26T00:00:00.000Z"
           Vectors.twoChanges _ Vectors.quarterChange).
  - reflexivity.
  - right. left. reflexivity.
  - reflexivity.
  - discriminate.
Defined.

(** ** The records of the resolver *)

Lemma next_changes_records (rest : list TimezoneOffsetUtil.timeChange) :
  forall (st : TimezoneOffsetUtil.loop)
         (seen : list TimezoneOffsetUtil.timeChange),
    map handed_in (TimezoneOffsetUtil.done_changes st) = map handed_in seen ->
    Forall (fun r => TimezoneOffsetUtil.jsDate r = None)
      (TimezoneOffsetUtil.done_changes st) ->
    map filled_in (TimezoneOffsetUtil.done_changes st)
    = map opened (TimezoneOffsetUtil.offsetIntervals st) ->
    let st' := fold_left TimezoneOffsetUtil.next_change rest st in
    map handed_in (TimezoneOffsetUtil.done_changes st')
    = map handed_in (seen ++ rest)
    /\ Forall (fun r => TimezoneOffsetUtil.jsDate r = None)
         (TimezoneOffsetUtil.done_changes st')
    /\ map filled_in (TimezoneOffsetUtil.done_changes st')
       = map opened (TimezoneOffsetUtil.offsetIntervals st').
Proof.
  induction rest as [|c r IH]; intros st seen H1 H2 H3.
  - simpl. rewrite app_nil_r. repeat split; assumption.
  - simpl fold_left.
    replace (seen ++ c :: r) with ((seen ++ [c]) ++ r)
      by (rewrite <- app_assoc; reflexivity).
    apply IH; simpl.
    + rewrite !map_app, H1. reflexivity.
    + apply Forall_app. split; [exact H2|].
      constructor; [reflexivity | constructor].
    + rewrite !map_app, H3. reflexivity.
Qed.

Section ResolverRecords.

Variable checkTimezoneName : string -> bool.
Variable applyTimezone : Z -> string -> Z.
Variable getOffsetFromZone : string -> string -> Z.

(** X17. The records the resolver keeps are the changes handed in, the most
    recent (of greatest index) first, each as it was handed in but with its
    date deleted and with the time and the offset filled in that the
    interval pushed for it starts at and has. *)
Theorem records_are_resolved_changes
  (timezone mostRecent : string)
  (changes : list TimezoneOffsetUtil.timeChange)
  (self : TimezoneOffsetUtil.t) :
  TimezoneOffsetUtil.create checkTimezoneName applyTimezone getOffsetFromZone
    timezone mostRecent changes = JS.Ok self ->
  map handed_in (TimezoneOffsetUtil.records self)
  = map handed_in (TimezoneOffsetUtil.sorted_changes changes)
  /\ Forall (fun r => TimezoneOffsetUtil.jsDate r = None)
       (TimezoneOffsetUtil.records self)
  /\ map filled_in (TimezoneOffsetUtil.records self)
     = map opened (removelast (TimezoneOffsetUtil.intervals self)).
Proof.
  intros Hmk.
  unfold TimezoneOffsetUtil.create in Hmk.
  destruct (negb (checkTimezoneName timezone)); [discriminate|].
  destruct (is_nan (Date.parse mostRecent)); [discriminate|].
  destruct (negb (forallb TimezoneOffsetUtil.is_timeChange changes));
    [discriminate|].
  unfold TimezoneOffsetUtil.process in Hmk.
  pose proof (sorted_changes_perm changes) as Hp.
  destruct (TimezoneOffsetUtil.sorted_changes changes) as [|c0 rest] eqn:Hs.
  { apply Permutation_nil in Hp. subst changes.
    inversion Hmk. subst self. simpl. repeat split. constructor. }
  inversion Hmk. subst self. clear Hmk. simpl.
  destruct (next_changes_records rest
              (TimezoneOffsetUtil.first_change applyTimezone
                 getOffsetFromZone timezone mostRecent c0) [c0])
    as [H1 [H2 H3]].
  - reflexivity.
  - constructor; [reflexivity | constructor].
  - reflexivity.
  - split; [exact H1|]. split; [exact H2|].
    rewrite removelast_last. exact H3.
Qed.

End ResolverRecords.

Lemma records_are_resolved_changes_witness :
  exists self,
    Vectors.resolver Vectors.twoChanges = JS.Ok self
    /\ map handed_in (TimezoneOffsetUtil.records self)
       = map handed_in
           (TimezoneOffsetUtil.sorted_changes Vectors.twoChanges)
    /\ Forall (fun r => TimezoneOffsetUtil.jsDate r = None)
         (TimezoneOffsetUtil.records self)
    /\ map filled_in (TimezoneOffsetUtil.records self)
       = map opened (removelast (TimezoneOffsetUtil.intervals self)).
Proof.
  eexists. split; [reflexivity|].
  apply (records_are_resolved_changes Vectors.anyName Vectors.utcDate
           Vectors.utcOffset "UTC" "2014-09-26T00:00:00.000Z"
           Vectors.twoChanges _ eq_refl).
Defined.
